(** * pylive: the OSC query/dispatch engine of [live/query.py]

    A shallow embedding of the [Query] singleton: its attributes, the
    [threading.Event] objects it allocates, the transport it sends on and
    the callbacks it invokes, followed by the properties of [cmd], [query],
    [handler] and [add_handler]. *)

From Stdlib Require Import ZArith Ascii String List Lia.
From stdpp Require Import gmap strings list fin_maps.
Import ListNotations.

Local Open Scope string_scope.
Local Open Scope list_scope.

(** ** Values, exceptions, results *)

(** An OSC argument.  Floats are never computed with here; they are carried
    as a mantissa and a binary exponent. *)
Inductive Value : Type :=
| VInt (n : Z)
| VFloat (mantissa exponent : Z)
| VStr (s : string)
| VBool (b : bool).

(** The exception classes that occur in [query.py].  [LiveConnectionError]
    is imported from [live/exceptions.py]; [OtherError] stands for whatever
    class a user callback or a backend raises. *)
Inductive ExnClass : Type :=
| LiveConnectionError
| KeyError
| IndexError
| OtherError (name : string).

Record Exn : Type := mkExn { exn_class : ExnClass; exn_message : string }.

Inductive Result (A : Type) : Type :=
| Returned (a : A)
| Raised (e : Exn).
Arguments Returned {A} a.
Arguments Raised {A} e.

(** ** Callbacks

    A Python callable registered with the engine.  [cb_signature] is the
    number of parameters [inspect.signature] reports ([None] when that call
    raises), [cb_argspec] is what [inspect.getargspec] answers, and [cb_body]
    says whether a call with the given positional arguments returns ([None])
    or raises.  Callbacks are taken not to call back into the [Query]
    object. *)
Record Callback : Type := mkCallback {
  cb_name : string;
  cb_signature : option nat;
  cb_argspec : Result (list string);
  cb_body : list Value -> option Exn
}.

(** ** Transport *)

Inductive Backend : Type := liblo | pythonosc.

(** What the backend is handed: [liblo.send(target, msg, *args)] gets the
    argument tuple, [send_message(msg, args)] gets the tuple or, for a
    one-element tuple, the bare element. *)
Inductive Payload : Type :=
| Args (l : list Value)
| Bare (v : Value).

(** The kwargs of [query] that the code reads. *)
Record Kwargs : Type := mkKwargs {
  kw_response_address : option string;
  kw_timeout : option Z
}.

Definition no_kwargs : Kwargs := mkKwargs None None.

(** The lines handed to [log_debug]. *)
Inductive LogLine : Type :=
| OSC_output (msg : string) (args : list Value)
| During_cmd (msg : string) (args : Payload)
| Timeout_during_query (msg : string) (args : list Value) (kwargs : Kwargs)
| OSC_input (address : string) (data : list Value)
| OSC_start_bundle
| OSC_end_bundle.

(** ** State

    The attributes of the [Query] object set in [__init__], then the objects
    and environment they refer to.  An event is named by its allocation
    index in [event_flags], which holds each [threading.Event]'s flag.
    [send_faults] is the environment's answer to the coming backend sends,
    one entry per send, [true] for a send that raises; when it is exhausted
    sends go through. *)
Record Live : Type := mkLive {
  OSC_BACKEND : Backend;
  beat_callback : option Callback;
  startup_callback : option Callback;
  handlers : gmap string (list Callback);
  osc_timeout : Z;
  osc_server_events : gmap string nat;
  query_address : option string;
  query_rv : list Value;
  event_flags : list bool;
  send_faults : list bool;
  wire : list (string * Payload);
  calls : list (Callback * list Value);
  debug_log : list LogLine
}.

(** [Query.__init__] (the server and its thread belong to the transport);
    the default timeout of 3.0 seconds is kept in milliseconds. *)
Definition init (b : Backend) : Live :=
  mkLive b None None ∅ 3000 ∅ None [] [] [] [] [] [].

Definition set_beat_callback (cb : option Callback) (s : Live) : Live :=
  mkLive (OSC_BACKEND s) cb (startup_callback s) (handlers s)
    (osc_timeout s) (osc_server_events s) (query_address s) (query_rv s)
    (event_flags s) (send_faults s) (wire s) (calls s) (debug_log s).

Definition set_startup_callback (cb : option Callback) (s : Live) : Live :=
  mkLive (OSC_BACKEND s) (beat_callback s) cb (handlers s)
    (osc_timeout s) (osc_server_events s) (query_address s) (query_rv s)
    (event_flags s) (send_faults s) (wire s) (calls s) (debug_log s).

Definition set_handlers (h : gmap string (list Callback)) (s : Live) : Live :=
  mkLive (OSC_BACKEND s) (beat_callback s) (startup_callback s) h
    (osc_timeout s) (osc_server_events s) (query_address s) (query_rv s)
    (event_flags s) (send_faults s) (wire s) (calls s) (debug_log s).

Definition set_osc_server_events (m : gmap string nat) (s : Live) : Live :=
  mkLive (OSC_BACKEND s) (beat_callback s) (startup_callback s) (handlers s)
    (osc_timeout s) m (query_address s) (query_rv s)
    (event_flags s) (send_faults s) (wire s) (calls s) (debug_log s).

Definition set_query_address (a : option string) (s : Live) : Live :=
  mkLive (OSC_BACKEND s) (beat_callback s) (startup_callback s) (handlers s)
    (osc_timeout s) (osc_server_events s) a (query_rv s)
    (event_flags s) (send_faults s) (wire s) (calls s) (debug_log s).

Definition set_query_rv (rv : list Value) (s : Live) : Live :=
  mkLive (OSC_BACKEND s) (beat_callback s) (startup_callback s) (handlers s)
    (osc_timeout s) (osc_server_events s) (query_address s) rv
    (event_flags s) (send_faults s) (wire s) (calls s) (debug_log s).

Definition set_event_flags (f : list bool) (s : Live) : Live :=
  mkLive (OSC_BACKEND s) (beat_callback s) (startup_callback s) (handlers s)
    (osc_timeout s) (osc_server_events s) (query_address s) (query_rv s)
    f (send_faults s) (wire s) (calls s) (debug_log s).

Definition set_send_faults (f : list bool) (s : Live) : Live :=
  mkLive (OSC_BACKEND s) (beat_callback s) (startup_callback s) (handlers s)
    (osc_timeout s) (osc_server_events s) (query_address s) (query_rv s)
    (event_flags s) f (wire s) (calls s) (debug_log s).

Definition set_wire (w : list (string * Payload)) (s : Live) : Live :=
  mkLive (OSC_BACKEND s) (beat_callback s) (startup_callback s) (handlers s)
    (osc_timeout s) (osc_server_events s) (query_address s) (query_rv s)
    (event_flags s) (send_faults s) w (calls s) (debug_log s).

Definition set_calls (c : list (Callback * list Value)) (s : Live) : Live :=
  mkLive (OSC_BACKEND s) (beat_callback s) (startup_callback s) (handlers s)
    (osc_timeout s) (osc_server_events s) (query_address s) (query_rv s)
    (event_flags s) (send_faults s) (wire s) c (debug_log s).

Definition set_debug_log (d : list LogLine) (s : Live) : Live :=
  mkLive (OSC_BACKEND s) (beat_callback s) (startup_callback s) (handlers s)
    (osc_timeout s) (osc_server_events s) (query_address s) (query_rv s)
    (event_flags s) (send_faults s) (wire s) (calls s) d.

(** ** A state-and-exception monad

    A raised exception keeps the state reached so far, as in Python. *)
Definition M (A : Type) : Type := Live -> Live * Result A.

Definition ret {A} (a : A) : M A := fun s => (s, Returned a).

Definition raise {A} (e : Exn) : M A := fun s => (s, Raised e).

Definition bind {A B} (m : M A) (k : A -> M B) : M B :=
  fun s =>
    match m s with
    | (s', Returned a) => k a s'
    | (s', Raised e) => (s', Raised e)
    end.

Definition lift {A} (r : Result A) : M A := fun s => (s, r).

Definition gets {A} (f : Live -> A) : M A := fun s => (s, Returned (f s)).

Definition modify (f : Live -> Live) : M unit := fun s => (f s, Returned tt).

(** [try: m except Exception as e: h e] *)
Definition try_except {A} (m : M A) (h : Exn -> M A) : M A :=
  fun s =>
    match m s with
    | (s', Returned a) => (s', Returned a)
    | (s', Raised e) => h e s'
    end.

Notation "x <- m ;; k" := (bind m (fun x => k))
  (at level 100, m at next level, right associativity).
Notation "m ;;; k" := (bind m (fun _ => k))
  (at level 100, right associativity).

Fixpoint for_each {A} (l : list A) (body : A -> M unit) : M unit :=
  match l with
  | [] => ret tt
  | x :: l' => body x ;;; for_each l' body
  end.

(** Calling a callback: the call is recorded, then the body returns or
    raises. *)
Definition call (cb : Callback) (args : list Value) : M unit :=
  modify (fun s => set_calls (calls s ++ [(cb, args)]) s) ;;;
  match cb_body cb args with
  | None => ret tt
  | Some e => raise e
  end.

(** ** threading.Event *)

(** [threading.Event()]: a new object with its flag cleared. *)
Definition new_event : M nat :=
  fun s => (set_event_flags (event_flags s ++ [false]) s,
            Returned (length (event_flags s))).

(** [ev.set()] *)
Definition event_set (ev : nat) : M unit :=
  modify (fun s => set_event_flags (<[ev := true]> (event_flags s)) s).

Definition is_set (ev : nat) (s : Live) : bool :=
  match event_flags s !! ev with
  | Some b => b
  | None => false
  end.

(** [ev.wait(timeout)] as seen when the waiter resumes: the answer is the
    flag; how long the wait lasted is not modelled. *)
Definition event_wait (ev : nat) (timeout : Z) : M bool :=
  gets (is_set ev).

(** ** The transport's send

    [liblo.send] / [osc_client.send_message]: the next entry of
    [send_faults] decides whether the backend raises; a send that goes
    through puts the message on the wire. *)
Definition backend_send (msg : string) (p : Payload) : M unit :=
  fun s =>
    match send_faults s with
    | true :: rest =>
        (set_send_faults rest s,
         Raised (mkExn (OtherError "Exception") "send failed"))
    | false :: rest =>
        (set_wire (wire s ++ [(msg, p)]) (set_send_faults rest s), Returned tt)
    | [] => (set_wire (wire s ++ [(msg, p)]) s, Returned tt)
    end.

Definition send_error_message : string :=
  "Couldn't send message to Live (is LiveOSC present and activated?)".

Definition timeout_error_message : string :=
  "Timed out waiting for response from LiveOSC. Is Live running and LiveOSC installed?".

(** ** The logger

    [log_debug] is inherited from [LoggingObject] ([live/object.py]), which
    is not among the sources.  Line 163 hands it a format and the two
    values to put in, so it interpolates its first argument with the
    arguments that follow.  The lines at 179, 236 and 261 are handed over
    already formatted and are interpolated once more with no arguments:
    that raises when the text holds a conversion.

    The text of such a line is fixed punctuation around the strings that
    the caller or the wire supplied (numbers and booleans print without a
    percent sign), and interpolation reads it from the left and stops at
    the first conversion that asks for an argument.  What it does with a
    supplied string is a parameter of the development,
    [conversion_error]; all that is assumed of it is that a string without
    a percent sign goes through. *)

Fixpoint str_has_percent (t : string) : bool :=
  match t with
  | EmptyString => false
  | String c rest => Ascii.eqb c "%"%char || str_has_percent rest
  end.

(** The strings among the values, in order. *)
Definition value_strings (l : list Value) : list string :=
  flat_map (fun v => match v with
                     | VStr t => [t]
                     | _ => []
                     end) l.

Definition payload_strings (p : Payload) : list string :=
  match p with
  | Args l => value_strings l
  | Bare v => value_strings [v]
  end.

(** The supplied strings of a line handed over as one text, in the order
    in which they stand in it; [OSC_output] comes as a format with its
    arguments and is not interpolated again. *)
Definition line_strings (line : LogLine) : list string :=
  match line with
  | OSC_output _ _ => []
  | During_cmd msg args => msg :: payload_strings args
  | Timeout_during_query msg args kwargs =>
      msg :: value_strings args
      ++ match kw_response_address kwargs with
         | Some r => [r]
         | None => []
         end
  | OSC_input address data => address :: value_strings data
  | OSC_start_bundle => []
  | OSC_end_bundle => []
  end.

(** A conversion rule for the examples: every string that holds a percent
    sign is refused, with the TypeError of an interpolation that lacks
    arguments. *)
Definition sample_rule (t : string) : option Exn :=
  if str_has_percent t
  then Some (mkExn (OtherError "TypeError")
               "not enough arguments for format string")
  else None.

Ltac by_evaluation := vm_compute; reflexivity.

Section Logger.

Variable conversion_error : string -> option Exn.

Hypothesis plain_text_passes :
  forall t, str_has_percent t = false -> conversion_error t = None.

(** The exception of the first supplied string that interpolation stops
    at. *)
Fixpoint first_error (l : list string) : option Exn :=
  match l with
  | [] => None
  | t :: rest =>
      match conversion_error t with
      | Some e => Some e
      | None => first_error rest
      end
  end.

(** What interpolating the text of a line once more ends with. *)
Definition reformat_error (line : LogLine) : option Exn :=
  first_error (line_strings line).

(** The logger takes the line as it is. *)
Definition logs_cleanly (line : LogLine) : bool :=
  match reformat_error line with
  | None => true
  | Some _ => false
  end.

(** [log_debug]: the line is interpolated, which raises or not as said
    above, and a line that went through is recorded.  The format of line
    163 gets its two arguments and the bundle lines hold no supplied
    string, so these always go through. *)
Definition log_debug (line : LogLine) : M unit :=
  match reformat_error line with
  | Some e => raise e
  | None => modify (fun s => set_debug_log (debug_log s ++ [line]) s)
  end.

(** ** Query.cmd *)

(** The value of [args] handed to the backend: [pythonosc] unpacks a
    one-element tuple. *)
Definition cmd_payload (b : Backend) (args : list Value) : Payload :=
  match b with
  | liblo => Args args
  | pythonosc =>
      match args with
      | [v] => Bare v
      | _ => Args args
      end
  end.

Definition cmd (msg : string) (args : list Value) : M unit :=
  log_debug (OSC_output msg args) ;;;
  b <- gets OSC_BACKEND ;;
  try_except
    (backend_send msg (cmd_payload b args))
    (fun _ =>
       log_debug (During_cmd msg (cmd_payload b args)) ;;;
       raise (mkExn LiveConnectionError send_error_message)).

(** ** Query.handler *)

(** [has_arg] of the beat callback: [inspect.signature] first, and
    [inspect.getargspec] when that raises.  Neither touches the state. *)
Definition has_arg (cb : Callback) : Result bool :=
  match cb_signature cb with
  | Some n => Returned (0 <? n)%nat
  | None =>
      match cb_argspec cb with
      | Returned names =>
          Returned ((0 <? length names)%nat
                    && negb (String.eqb (List.last names "") "self"))
      | Raised e => Raised e
      end
  end.

Definition handler (address : string) (data : list Value)
    (types : option string) : M unit :=
  log_debug (OSC_input address data) ;;;
  registered <- gets (fun s => handlers s !! address) ;;
  match registered with
  | Some hs => for_each hs (fun h => call h data)
  | None => ret tt
  end ;;;
  qa <- gets query_address ;;
  if decide (qa = Some address) then
    modify (fun s => set_query_rv (query_rv s ++ data) s) ;;;
    ev <- gets (fun s => osc_server_events s !! address) ;;
    match ev with
    | Some e => event_set e
    | None => raise (mkExn KeyError address)
    end
  else if decide (address = "/live/beat") then
    bc <- gets beat_callback ;;
    match bc with
    | Some cb =>
        a <- lift (has_arg cb) ;;
        if a then
          match data with
          | d0 :: _ => call cb [d0]
          | [] => raise (mkExn IndexError "index out of range")
          end
        else call cb []
    | None => ret tt
    end
  else if decide (address = "/remix/oscserver/startup") then
    sc <- gets startup_callback ;;
    match sc with
    | Some cb => call cb []
    | None => ret tt
    end
  else ret tt.

(** [assert OSC_BACKEND == b] *)
Definition assert_backend (b : Backend) : M unit :=
  cur <- gets OSC_BACKEND ;;
  match cur, b with
  | liblo, liblo | pythonosc, pythonosc => ret tt
  | _, _ => raise (mkExn (OtherError "AssertionError") "")
  end.

Definition pythonosc_handler_wrapper (address : string) (args : list Value)
    : M unit :=
  assert_backend pythonosc ;;;
  handler address args None.

Definition start_bundle_handler : M unit :=
  assert_backend liblo ;;;
  log_debug OSC_start_bundle.

Definition end_bundle_handler : M unit :=
  assert_backend liblo ;;;
  log_debug OSC_end_bundle.

(** The receiver thread handling the messages that arrive, in wire order.
    An exception that leaves [handler] ends that message's dispatch only:
    both backends report it and go on receiving. *)
Definition receive_one (m : string * list Value) : M unit :=
  fun s => (fst (handler (fst m) (snd m) None s), Returned tt).

Definition receive (arrivals : list (string * list Value)) : M unit :=
  for_each arrivals receive_one.

(** ** Query.query *)

(** Lines 209-213: a [response_address] kwarg that is [None] or empty is
    falsy and the request address is used. *)
Definition effective_response_address (msg : string) (kwargs : Kwargs)
    : string :=
  match kw_response_address kwargs with
  | Some r => if decide (r = "") then msg else r
  | None => msg
  end.

(** Lines 209-227: install the event, the address and an empty [query_rv],
    then send. *)
Definition query_send (msg : string) (args : list Value) (kwargs : Kwargs)
    : M string :=
  let response_address := effective_response_address msg kwargs in
  ev <- new_event ;;
  modify (fun s =>
    set_osc_server_events (<[response_address := ev]> (osc_server_events s)) s) ;;;
  modify (set_query_address (Some response_address)) ;;;
  modify (set_query_rv []) ;;;
  cmd msg args ;;;
  ret response_address.

(** Line 233, left of [.wait]: the event the caller is about to block on. *)
Definition query_event (response_address : string) : M nat :=
  ev <- gets (fun s => osc_server_events s !! response_address) ;;
  match ev with
  | Some e => ret e
  | None => raise (mkExn KeyError response_address)
  end.

(** Lines 232-242, from the moment the wait on [ev] ends. *)
Definition query_resume (msg : string) (args : list Value) (kwargs : Kwargs)
    (ev : nat) : M (list Value) :=
  dflt <- gets osc_timeout ;;
  rv <- event_wait ev (default dflt (kw_timeout kwargs)) ;;
  if rv then gets query_rv
  else
    log_debug (Timeout_during_query msg args kwargs) ;;;
    raise (mkExn LiveConnectionError timeout_error_message).

(** A whole call of [query]; [arrivals] are the inbound messages the
    receiver thread dispatches while the caller is blocked. *)
Definition query (msg : string) (args : list Value) (kwargs : Kwargs)
    (arrivals : list (string * list Value)) : M (list Value) :=
  response_address <- query_send msg args kwargs ;;
  ev <- query_event response_address ;;
  receive arrivals ;;;
  query_resume msg args kwargs ev.

(** ** Query.add_handler *)

Definition add_handler (address : string) (callback : Callback) : M unit :=
  present <- gets (fun s => handlers s !! address) ;;
  match present with
  | None => modify (fun s => set_handlers (<[address := []]> (handlers s)) s)
  | Some _ => ret tt
  end ;;;
  l <- gets (fun s => handlers s !! address) ;;
  match l with
  | Some hs =>
      modify (fun s =>
        set_handlers (<[address := hs ++ [callback]]> (handlers s)) s)
  | None => raise (mkExn KeyError address)
  end.

(** ** Histories

    The operations other threads and the receiver can perform on the
    engine, for statements about everything that may happen next. *)
Inductive Op : Type :=
| OpCmd (msg : string) (args : list Value)
| OpQuerySend (msg : string) (args : list Value) (kwargs : Kwargs)
| OpHandler (address : string) (data : list Value) (types : option string)
| OpAddHandler (address : string) (callback : Callback)
| OpSetBeatCallback (cb : option Callback)
| OpSetStartupCallback (cb : option Callback).

Definition step (o : Op) (s : Live) : Live :=
  match o with
  | OpCmd msg args => fst (cmd msg args s)
  | OpQuerySend msg args kwargs => fst (query_send msg args kwargs s)
  | OpHandler address data types => fst (handler address data types s)
  | OpAddHandler address callback => fst (add_handler address callback s)
  | OpSetBeatCallback cb => set_beat_callback cb s
  | OpSetStartupCallback cb => set_startup_callback cb s
  end.

Definition run (ops : list Op) (s : Live) : Live :=
  fold_left (fun s o => step o s) ops s.

(** ** Sample callbacks and values used in the examples *)

Definition returns : list Value -> option Exn := fun _ => None.

Definition raises (e : Exn) : list Value -> option Exn := fun _ => Some e.

Definition boom : Exn := mkExn (OtherError "ValueError") "boom".

Definition cb_ok (name : string) (params : nat) : Callback :=
  mkCallback name (Some params) (Returned []) returns.

Definition cb_bad (name : string) : Callback :=
  mkCallback name (Some 1%nat) (Returned []) (raises boom).


(** ** Module import: choosing the backend (lines 22-51)

    What the module reads when it is imported: the environment variable
    and whether each backend package can be imported. *)
Record ImportEnv : Type := mkImportEnv {
  env_PYLIVE_BACKEND : option string;
  can_import_pythonosc : bool;
  can_import_liblo : bool
}.

Inductive Warning : Type :=
| Warn_unsupported (value : string)
| Warn_trying_liblo.

Definition supported_backends : list string := ["pythonosc"; "liblo"].

(** [x in l] on strings. *)
Definition str_in (x : string) (l : list string) : bool :=
  existsb (String.eqb x) l.

(** The module body up to the final assert: the warnings issued and the
    value of [OSC_BACKEND], or the ImportError of [import liblo]. *)
Definition select_backend (env : ImportEnv)
    : list Warning * Result Backend :=
  let requested := default "liblo" (env_PYLIVE_BACKEND env) in
  let '(w1, chosen) :=
    if str_in requested supported_backends then ([], requested)
    else ([Warn_unsupported requested], "pythonosc") in
  let '(w2, chosen2, osc_backend) :=
    if String.eqb chosen "pythonosc" then
      if can_import_pythonosc env then (w1, chosen, Some pythonosc)
      else (w1 ++ [Warn_trying_liblo], "liblo", None)
    else (w1, chosen, None) in
  if String.eqb chosen2 "liblo" then
    if can_import_liblo env then (w2, Returned liblo)
    else (w2, Raised (mkExn (OtherError "ImportError") "liblo"))
  else
    match osc_backend with
    | Some b => (w2, Returned b)
    | None => (w2, Raised (mkExn (OtherError "AssertionError") ""))
    end.

(** ** The singleton decorator and the module-level helpers (lines 54-70)

    The one instance [singleton] keeps for the [Query] class: the
    constructor arguments it was built with and the engine state.  There is
    one object, so the helpers work on the stored state and write it
    back. *)
Record QueryInstance : Type := mkQueryInstance {
  osc_address : string * Z;
  listen_port : Z;
  engine : Live
}.

(** The positional arguments of a call [Query(...)]; [getinstance] takes
    no keyword arguments, and [__init__] takes at most two. *)
Inductive CtorArgs : Type :=
| NoArgs
| WithAddress (address : string * Z)
| WithAddressPort (address : string * Z) (port : Z)
| TooManyArgs.

(** [Query.__init__] with its defaults for the arguments not given; more
    than two arguments are a TypeError. *)
Definition construct (b : Backend) (args : CtorArgs) : Result QueryInstance :=
  match args with
  | NoArgs => Returned (mkQueryInstance ("127.0.0.1", 9900%Z) 9002%Z (init b))
  | WithAddress a => Returned (mkQueryInstance a 9002%Z (init b))
  | WithAddressPort a p => Returned (mkQueryInstance a p (init b))
  | TooManyArgs => Raised (mkExn (OtherError "TypeError") "__init__")
  end.

(** [getinstance]: [instances] is the slot kept for the class.  Building
    the instance raises when the arguments do not fit or when the server
    cannot bind its port ([bind_fails], decided by the environment), and
    then nothing is stored. *)
Definition getinstance (b : Backend) (bind_fails : bool) (args : CtorArgs)
    (instances : option QueryInstance)
    : option QueryInstance * Result QueryInstance :=
  match instances with
  | Some q => (instances, Returned q)
  | None =>
      match construct b args with
      | Raised e => (None, Raised e)
      | Returned q =>
          if bind_fails
          then (None, Raised (mkExn (OtherError "ServerError") "bind"))
          else (Some q, Returned q)
      end
  end.

(** A sequence of calls [Query(...)], each with the fate of its bind. *)
Definition getinstances (b : Backend) (calls : list (CtorArgs * bool))
    (instances : option QueryInstance) : option QueryInstance :=
  fold_left (fun inst c => fst (getinstance b (snd c) (fst c) inst))
    calls instances.

(** Whether a call can build the instance. *)
Definition builds (c : CtorArgs * bool) : bool :=
  match fst c with
  | TooManyArgs => false
  | _ => negb (snd c)
  end.

(** Run a method of the instance on the stored engine state. *)
Definition on_instance {A} (b : Backend) (bind_fails : bool) (m : M A)
    (instances : option QueryInstance)
    : option QueryInstance * Result A :=
  match getinstance b bind_fails NoArgs instances with
  | (inst, Returned q) =>
      let '(s', r) := m (engine q) in
      (Some (mkQueryInstance (osc_address q) (listen_port q) s'), r)
  | (inst, Raised e) => (inst, Raised e)
  end.

(** The module-level [cmd(...)], called with positional arguments:
    [Query().cmd(...)]. *)
Definition live_cmd (b : Backend) (bind_fails : bool) (msg : string)
    (args : list Value) (instances : option QueryInstance)
    : option QueryInstance * Result unit :=
  on_instance b bind_fails (cmd msg args) instances.

(** The module-level [query(...)]: [Query().query(...)], with the kwargs
    that [Query.query] reads. *)
Definition live_query (b : Backend) (bind_fails : bool) (msg : string)
    (args : list Value) (kwargs : Kwargs)
    (arrivals : list (string * list Value))
    (instances : option QueryInstance)
    : option QueryInstance * Result (list Value) :=
  on_instance b bind_fails (query msg args kwargs arrivals) instances.

(** ** Vocabulary of the statements *)

(** The callbacks registered for an address, in registration order. *)
Definition push_targets (s : Live) (address : string) : list Callback :=
  default [] (handlers s !! address).

(** Every callback of [hs] returns normally when called with [data]. *)
Definition quiet (data : list Value) (hs : list Callback) : bool :=
  forallb (fun h => match cb_body h data with
                    | None => true
                    | Some _ => false
                    end) hs.

(** One call of each callback of [hs] with [data], in order. *)
Definition invocations (data : list Value) (hs : list Callback)
    : list (Callback * list Value) :=
  map (fun h => (h, data)) hs.

(** Whether the backend raises on the next send. *)
Definition next_send_raises (s : Live) : bool :=
  match send_faults s with
  | true :: _ => true
  | _ => false
  end.

(** The call the dispatcher makes to a dedicated callback after the push
    handlers have returned: none for a message at the pending address. *)
Definition special_calls (s : Live) (address : string) (data : list Value)
    : list (Callback * list Value) :=
  if decide (query_address s = Some address) then []
  else if decide (address = "/live/beat") then
    match beat_callback s with
    | Some cb =>
        match has_arg cb, data with
        | Returned true, d0 :: _ => [(cb, [d0])]
        | Returned false, _ => [(cb, [])]
        | _, _ => []
        end
    | None => []
    end
  else if decide (address = "/remix/oscserver/startup") then
    match startup_callback s with
    | Some cb => [(cb, [])]
    | None => []
    end
  else [].

(** The state fields a dispatch or a send never writes. *)
Definition same_registry (s s' : Live) : Prop :=
  OSC_BACKEND s' = OSC_BACKEND s /\
  beat_callback s' = beat_callback s /\
  startup_callback s' = startup_callback s /\
  handlers s' = handlers s /\
  osc_timeout s' = osc_timeout s.

(** The pending-response state: the events map, the flags of the events,
    the pending address and the accumulated reply. *)
Definition same_pending (s s' : Live) : Prop :=
  osc_server_events s' = osc_server_events s /\
  event_flags s' = event_flags s /\
  query_address s' = query_address s /\
  query_rv s' = query_rv s.

(** The state once the dispatcher has logged its input line. *)
Definition logged_input (address : string) (data : list Value) (s : Live)
    : Live :=
  set_debug_log (debug_log s ++ [OSC_input address data]) s.

(** No message at [ra] among the arrivals. *)
Definition silent (ra : string) (arrivals : list (string * list Value))
    : bool :=
  forallb (fun m => negb (String.eqb (fst m) ra)) arrivals.

(** An existing event [e] whose flag is clear and which is not the event
    filed under the pending address. *)
Definition superseded (e : nat) (s : Live) : Prop :=
  (e < length (event_flags s))%nat /\
  is_set e s = false /\
  (forall a, query_address s = Some a -> osc_server_events s !! a <> Some e).

(** What the failure paths of [query] and [cmd] end with: the exception
    the logger raises on the line written there, the LiveConnectionError
    otherwise. *)
Definition timeout_outcome (msg : string) (args : list Value)
    (kwargs : Kwargs) : Exn :=
  match reformat_error (Timeout_during_query msg args kwargs) with
  | Some e => e
  | None => mkExn LiveConnectionError timeout_error_message
  end.

Definition send_failure_outcome (b : Backend) (msg : string)
    (args : list Value) : Exn :=
  match reformat_error (During_cmd msg (cmd_payload b args)) with
  | Some e => e
  | None => mkExn LiveConnectionError send_error_message
  end.

(** The arguments of the arrivals that the dispatcher appends to the reply
    of a query pending on [ra]: those of the messages at [ra] whose input
    line the logger takes and whose push handlers (the ones of [s]) all
    return. *)
Definition accepted (s : Live) (ra : string) (m : string * list Value)
    : bool :=
  String.eqb (fst m) ra
  && logs_cleanly (OSC_input (fst m) (snd m))
  && quiet (snd m) (push_targets s ra).

Definition replies (s : Live) (ra : string)
    (arrivals : list (string * list Value)) : list Value :=
  flat_map (fun m => if accepted s ra m then snd m else []) arrivals.

Definition answered (s : Live) (ra : string)
    (arrivals : list (string * list Value)) : bool :=
  existsb (accepted s ra) arrivals.

(** Operations other than issuing a query. *)
Definition issues_query (o : Op) : bool :=
  match o with
  | OpQuerySend _ _ _ => true
  | _ => false
  end.

(** The pending address, when there is one, has an existing event filed
    under it. *)
Definition pending_filed (s : Live) : Prop :=
  forall a, query_address s = Some a ->
    exists ev, osc_server_events s !! a = Some ev /\
               (ev < length (event_flags s))%nat.

(** The message an operation hands to the backend, if it sends. *)
Definition sent_by (b : Backend) (o : Op) : list (string * Payload) :=
  match o with
  | OpCmd msg args => [(msg, cmd_payload b args)]
  | OpQuerySend msg args _ => [(msg, cmd_payload b args)]
  | _ => []
  end.

(** ** States used in the examples *)

(** The engine with a raising and a returning handler on /live/tempo and a
    query pending on that address. *)
Definition tempo_watchers : Live :=
  run [OpAddHandler "/live/tempo" (cb_bad "first");
       OpAddHandler "/live/tempo" (cb_ok "second" 1);
       OpQuerySend "/live/tempo" [] no_kwargs]
      (init liblo).

(** The engine with a zero-argument beat callback, a startup callback and
    a query pending on the address given. *)
Definition pending_on (address : string) : Live :=
  run [OpSetBeatCallback (Some (cb_ok "tick" 0));
       OpSetStartupCallback (Some (cb_ok "started" 0));
       OpQuerySend address [] no_kwargs]
      (init liblo).

(** The engine with the given beat callback and a query pending on
    /live/beat. *)
Definition beat_awaited (cb : Callback) : Live :=
  run [OpSetBeatCallback (Some cb); OpQuerySend "/live/beat" [] no_kwargs]
      (init liblo).


(** The engine with a raising handler registered ahead of a returning one
    on /live/track. *)
Definition track_watchers : Live :=
  run (map (OpAddHandler "/live/track") [cb_bad "f"; cb_ok "g" 1])
      (init liblo).

Ltac munfold :=
  unfold event_set, event_wait, new_event;
  unfold bind, lift, gets, modify, ret, raise, try_except.

(** * Properties *)

(** ** The loop over the registered callbacks *)

Lemma call_returns (h : Callback) (data : list Value) (s : Live) :
  cb_body h data = None ->
  call h data s = (set_calls (calls s ++ [(h, data)]) s, Returned tt).
Proof. intros Hb. unfold call. munfold. rewrite Hb. reflexivity. Qed.

Lemma call_raises (h : Callback) (data : list Value) (e : Exn) (s : Live) :
  cb_body h data = Some e ->
  call h data s = (set_calls (calls s ++ [(h, data)]) s, Raised e).
Proof. intros Hb. unfold call. munfold. rewrite Hb. reflexivity. Qed.

Lemma set_calls_nil (s : Live) : set_calls (calls s ++ []) s = s.
Proof. destruct s. unfold set_calls. simpl. rewrite app_nil_r. reflexivity. Qed.

Lemma set_calls_twice (s : Live) (c1 c2 : list (Callback * list Value)) :
  set_calls (calls (set_calls (calls s ++ c1) s) ++ c2) (set_calls (calls s ++ c1) s)
  = set_calls (calls s ++ c1 ++ c2) s.
Proof. unfold set_calls. simpl. rewrite app_assoc. reflexivity. Qed.

Lemma for_each_call_quiet (data : list Value) (hs : list Callback) :
  forall s : Live,
    quiet data hs = true ->
    for_each hs (fun h => call h data) s
    = (set_calls (calls s ++ invocations data hs) s, Returned tt).
Proof.
  induction hs as [|h hs IH]; intros s Hq.
  - simpl. unfold ret. rewrite set_calls_nil. reflexivity.
  - simpl in Hq. apply andb_prop in Hq as [Hh Hq].
    destruct (cb_body h data) eqn:Hb; [discriminate|].
    simpl. unfold bind. rewrite (call_returns _ _ _ Hb).
    rewrite (IH _ Hq). rewrite set_calls_twice. reflexivity.
Qed.

Lemma for_each_call_raising (data : list Value) (l1 l2 : list Callback)
    (cb : Callback) (e : Exn) :
  forall s : Live,
    quiet data l1 = true ->
    cb_body cb data = Some e ->
    for_each (l1 ++ cb :: l2) (fun h => call h data) s
    = (set_calls (calls s ++ invocations data (l1 ++ [cb])) s, Raised e).
Proof.
  induction l1 as [|h l1 IH]; intros s Hq Hb.
  - simpl. unfold bind. rewrite (call_raises _ _ _ _ Hb). reflexivity.
  - simpl in Hq. apply andb_prop in Hq as [Hh Hq].
    destruct (cb_body h data) eqn:Hh'; [discriminate|].
    simpl. unfold bind. rewrite (call_returns _ _ _ Hh').
    rewrite (IH _ Hq Hb). rewrite set_calls_twice. reflexivity.
Qed.

(** Whatever the callbacks do, the loop only extends [calls]. *)
Lemma for_each_call_frame (data : list Value) (hs : list Callback) :
  forall s : Live,
    exists cs r,
      for_each hs (fun h => call h data) s = (set_calls (calls s ++ cs) s, r).
Proof.
  induction hs as [|h hs IH]; intros s.
  - exists [], (Returned tt). simpl. unfold ret. rewrite set_calls_nil.
    reflexivity.
  - simpl. unfold bind. destruct (cb_body h data) as [e|] eqn:Hb.
    + rewrite (call_raises _ _ _ _ Hb). eauto.
    + rewrite (call_returns _ _ _ Hb).
      destruct (IH (set_calls (calls s ++ [(h, data)]) s)) as (cs & r & ->).
      rewrite set_calls_twice. eauto.
Qed.

(** ** The dispatcher, step by step *)

Lemma call_state (h : Callback) (args : list Value) (s : Live) :
  fst (call h args s) = set_calls (calls s ++ [(h, args)]) s.
Proof.
  destruct (cb_body h args) as [e|] eqn:Hb.
  - rewrite (call_raises _ _ _ _ Hb). reflexivity.
  - rewrite (call_returns _ _ _ Hb). reflexivity.
Qed.

Lemma log_debug_clean (line : LogLine) (s : Live) :
  logs_cleanly line = true ->
  log_debug line s
  = (set_debug_log (debug_log s ++ [line]) s, Returned tt).
Proof.
  unfold logs_cleanly, log_debug. intros H.
  destruct (reformat_error line); [discriminate|reflexivity].
Qed.

Lemma log_debug_rejected (line : LogLine) (e : Exn) (s : Live) :
  reformat_error line = Some e ->
  log_debug line s = (s, Raised e).
Proof. unfold log_debug. intros ->. reflexivity. Qed.

(** A message whose input line the logger refuses is not dispatched. *)
Lemma handler_log_rejected (address : string) (data : list Value)
    (types : option string) (e : Exn) (s : Live) :
  reformat_error (OSC_input address data) = Some e ->
  handler address data types s = (s, Raised e).
Proof.
  intros H. unfold handler. unfold bind at 1.
  rewrite (log_debug_rejected (OSC_input address data) e s H).
  reflexivity.
Qed.

Lemma push_loop_eq (s t : Live) (address : string) (f : Callback -> M unit) :
  (match handlers s !! address with
   | Some hs => for_each hs f
   | None => fun s1 => (s1, Returned tt)
   end) t
  = for_each (push_targets s address) f t.
Proof. unfold push_targets. destruct (handlers s !! address); reflexivity. Qed.

(** Entering the dispatcher when the logger takes the input line: what is
    left is the push loop on the logged state, then the rest. *)
Ltac enter_handler Hclean Hloop :=
  unfold handler; unfold bind at 1;
  rewrite (log_debug_clean _ _ Hclean);
  munfold; simpl; rewrite push_loop_eq;
  match type of Hloop with
  | for_each _ _ ?t = _ => change (set_debug_log _ _) with t
  end;
  rewrite Hloop.

Lemma handler_state (address : string) (data : list Value)
    (types : option string) (s : Live) :
  logs_cleanly (OSC_input address data) = true ->
  let s0 := logged_input address data s in
  exists cs r,
    for_each (push_targets s address) (fun h => call h data) s0
    = (set_calls (calls s ++ cs) s0, r) /\
    fst (handler address data types s) =
      match r with
      | Raised _ => set_calls (calls s ++ cs) s0
      | Returned _ =>
          if decide (query_address s = Some address) then
            match osc_server_events s !! address with
            | Some ev =>
                set_event_flags (<[ev := true]> (event_flags s))
                  (set_query_rv (query_rv s ++ data)
                     (set_calls (calls s ++ cs) s0))
            | None =>
                set_query_rv (query_rv s ++ data)
                  (set_calls (calls s ++ cs) s0)
            end
          else set_calls (calls s ++ cs ++ special_calls s address data) s0
      end.
Proof.
  intros Hclean s0.
  destruct (for_each_call_frame data (push_targets s address) s0)
    as (cs & r & Hloop).
  exists cs, r. split; [exact Hloop|].
  unfold special_calls. enter_handler Hclean Hloop.
  destruct r as [[]|e]; simpl; [|reflexivity].
  destruct (decide (query_address s = Some address)) as [Hq|Hq]; simpl.
  { destruct (osc_server_events s !! address); reflexivity. }
  destruct (decide (address = "/live/beat")); simpl.
  { destruct (beat_callback s) as [cb|]; simpl;
      [|rewrite app_nil_r; reflexivity].
    destruct (has_arg cb) as [[|]|]; simpl.
    - destruct data; simpl; [rewrite app_nil_r; reflexivity|].
      rewrite call_state. simpl. unfold set_calls. simpl.
      rewrite app_assoc. reflexivity.
    - rewrite call_state. simpl. unfold set_calls. simpl.
      rewrite app_assoc. reflexivity.
    - rewrite app_nil_r. reflexivity. }
  destruct (decide (address = "/remix/oscserver/startup")); simpl.
  { destruct (startup_callback s) as [cb|]; simpl;
      [|rewrite app_nil_r; reflexivity].
    rewrite call_state. simpl. unfold set_calls. simpl.
    rewrite app_assoc. reflexivity. }
  rewrite app_nil_r. reflexivity.
Qed.

Lemma handler_result_raised (address : string) (data : list Value)
    (types : option string) (s s1 : Live) (e : Exn) :
  logs_cleanly (OSC_input address data) = true ->
  for_each (push_targets s address) (fun h => call h data)
    (logged_input address data s) = (s1, Raised e) ->
  handler address data types s = (s1, Raised e).
Proof.
  intros Hclean Hloop. enter_handler Hclean Hloop. reflexivity.
Qed.

Lemma handler_result_correlated (address : string) (data : list Value)
    (types : option string) (s s1 : Live) (ev : nat) :
  logs_cleanly (OSC_input address data) = true ->
  for_each (push_targets s address) (fun h => call h data)
    (logged_input address data s) = (s1, Returned tt) ->
  query_address s1 = Some address ->
  osc_server_events s1 !! address = Some ev ->
  handler address data types s
  = (set_event_flags (<[ev := true]> (event_flags s1))
       (set_query_rv (query_rv s1 ++ data) s1), Returned tt).
Proof.
  intros Hclean Hloop Hq Hev. enter_handler Hclean Hloop. simpl.
  destruct (decide (query_address s1 = Some address)); [|contradiction].
  simpl. rewrite Hev. reflexivity.
Qed.

(** A message at the pending address, with an input line the logger takes
    and push handlers that return. *)
Lemma handler_correlated (address : string) (data : list Value)
    (types : option string) (s : Live) (ev : nat) :
  logs_cleanly (OSC_input address data) = true ->
  query_address s = Some address ->
  osc_server_events s !! address = Some ev ->
  quiet data (push_targets s address) = true ->
  handler address data types s
  = (set_event_flags (<[ev := true]> (event_flags s))
       (set_query_rv (query_rv s ++ data)
          (set_calls (calls s ++ invocations data (push_targets s address))
             (logged_input address data s))),
     Returned tt).
Proof.
  intros Hclean Hq Hev Hquiet.
  pose proof (for_each_call_quiet data _ (logged_input address data s) Hquiet)
    as Hloop.
  rewrite (handler_result_correlated _ _ _ _ _ ev Hclean Hloop);
    [reflexivity|exact Hq|exact Hev].
Qed.

(** ** Sending *)

Lemma cmd_frame (msg : string) (args : list Value) (s : Live) :
  let s' := fst (cmd msg args s) in
  same_registry s s' /\ same_pending s s' /\ calls s' = calls s.
Proof.
  unfold cmd, log_debug, backend_send, same_registry, same_pending.
  munfold. simpl.
  destruct (send_faults s) as [|[|] rest]; simpl;
    try destruct (reformat_error _); simpl; repeat split; reflexivity.
Qed.

Lemma cmd_sent (msg : string) (args : list Value) (s : Live) :
  next_send_raises s = false ->
  snd (cmd msg args s) = Returned tt /\
  wire (fst (cmd msg args s))
  = wire s ++ [(msg, cmd_payload (OSC_BACKEND s) args)].
Proof.
  unfold next_send_raises, cmd, log_debug, backend_send. munfold. simpl.
  destruct (send_faults s) as [|[|] rest]; simpl; intros H;
    try discriminate; split; reflexivity.
Qed.

Lemma cmd_failed (msg : string) (args : list Value) (s : Live) :
  next_send_raises s = true ->
  snd (cmd msg args s)
  = Raised (send_failure_outcome (OSC_BACKEND s) msg args) /\
  wire (fst (cmd msg args s)) = wire s.
Proof.
  unfold next_send_raises, cmd, log_debug, backend_send,
    send_failure_outcome. munfold. simpl.
  destruct (send_faults s) as [|[|] rest]; simpl; intros H;
    try discriminate.
  destruct (reformat_error _); split; reflexivity.
Qed.

(** What [query] has installed when it reaches the wait, or when its send
    raised. *)
Lemma query_send_state (msg : string) (args : list Value) (kwargs : Kwargs)
    (s : Live) :
  let ra := effective_response_address msg kwargs in
  let s' := fst (query_send msg args kwargs s) in
  osc_server_events s' = <[ra := length (event_flags s)]> (osc_server_events s) /\
  event_flags s' = event_flags s ++ [false] /\
  query_address s' = Some ra /\
  query_rv s' = [] /\
  same_registry s s' /\
  calls s' = calls s /\
  wire s' = (if next_send_raises s then wire s
             else wire s ++ [(msg, cmd_payload (OSC_BACKEND s) args)]) /\
  snd (query_send msg args kwargs s)
  = (if next_send_raises s
     then Raised (send_failure_outcome (OSC_BACKEND s) msg args)
     else Returned ra).
Proof.
  unfold query_send, cmd, log_debug, backend_send, next_send_raises,
    same_registry, send_failure_outcome.
  munfold. simpl.
  destruct (send_faults s) as [|[|] rest]; simpl;
    try destruct (reformat_error _); simpl; repeat split; reflexivity.
Qed.

Lemma query_event_installed (msg : string) (args : list Value)
    (kwargs : Kwargs) (s : Live) :
  let s' := fst (query_send msg args kwargs s) in
  query_event (effective_response_address msg kwargs) s'
  = (s', Returned (length (event_flags s))).
Proof.
  destruct (query_send_state msg args kwargs s) as (Hev & _).
  cbv zeta. unfold query_event. munfold. cbv beta iota. rewrite Hev.
  rewrite lookup_insert_eq. reflexivity.
Qed.

Lemma is_set_fresh (s' : Live) (flags : list bool) :
  event_flags s' = flags ++ [false] ->
  is_set (length flags) s' = false.
Proof.
  intros H. unfold is_set. rewrite H.
  rewrite lookup_app_r by lia. rewrite Nat.sub_diag. reflexivity.
Qed.

Lemma query_resume_set (msg : string) (args : list Value) (kwargs : Kwargs)
    (ev : nat) (s : Live) :
  is_set ev s = true ->
  query_resume msg args kwargs ev s = (s, Returned (query_rv s)).
Proof.
  intros H. unfold query_resume. munfold. cbv beta iota. rewrite H.
  reflexivity.
Qed.

(** The wait ended with the event unset: the timeout path, on which the
    line is logged first. *)
Lemma query_resume_unset (msg : string) (args : list Value) (kwargs : Kwargs)
    (ev : nat) (s : Live) :
  is_set ev s = false ->
  snd (query_resume msg args kwargs ev s)
  = Raised (timeout_outcome msg args kwargs) /\
  same_pending s (fst (query_resume msg args kwargs ev s)).
Proof.
  intros H. unfold query_resume, log_debug, timeout_outcome, same_pending.
  munfold. cbv beta iota. rewrite H. simpl.
  destruct (reformat_error _); simpl; repeat split; reflexivity.
Qed.

Lemma timeout_outcome_clean (msg : string) (args : list Value)
    (kwargs : Kwargs) :
  logs_cleanly (Timeout_during_query msg args kwargs) = true ->
  timeout_outcome msg args kwargs
  = mkExn LiveConnectionError timeout_error_message.
Proof.
  unfold logs_cleanly, timeout_outcome.
  destruct (reformat_error _); [discriminate|reflexivity].
Qed.

Lemma send_failure_outcome_clean (b : Backend) (msg : string)
    (args : list Value) :
  logs_cleanly (During_cmd msg (cmd_payload b args)) = true ->
  send_failure_outcome b msg args
  = mkExn LiveConnectionError send_error_message.
Proof.
  unfold logs_cleanly, send_failure_outcome.
  destruct (reformat_error _); [discriminate|reflexivity].
Qed.

(** ** A whole query *)

Lemma receive_returns (arrivals : list (string * list Value)) :
  forall s : Live, snd (receive arrivals s) = Returned tt.
Proof.
  unfold receive. induction arrivals as [|m ms IH]; intros s; simpl.
  - reflexivity.
  - unfold bind, receive_one. apply IH.
Qed.

Lemma receive_cons (m : string * list Value)
    (ms : list (string * list Value)) (s : Live) :
  fst (receive (m :: ms) s)
  = fst (receive ms (fst (handler (fst m) (snd m) None s))).
Proof. reflexivity. Qed.

(** When the send went through, the caller blocks on the event it
    installed, the receiver handles [arrivals], and the caller resumes. *)
Lemma query_after_send (msg : string) (args : list Value) (kwargs : Kwargs)
    (arrivals : list (string * list Value)) (s : Live) :
  next_send_raises s = false ->
  query msg args kwargs arrivals s
  = query_resume msg args kwargs (length (event_flags s))
      (fst (receive arrivals (fst (query_send msg args kwargs s)))).
Proof.
  intros Hsend.
  pose proof (query_send_state msg args kwargs s) as H. cbv zeta in H.
  destruct H as (_ & _ & _ & _ & _ & _ & _ & Hres). rewrite Hsend in Hres.
  pose proof (query_event_installed msg args kwargs s) as Hev. cbv zeta in Hev.
  pose proof (receive_returns arrivals (fst (query_send msg args kwargs s)))
    as Hrecv.
  unfold query, bind.
  destruct (query_send msg args kwargs s) as [s1 r1]. simpl in *. subst r1.
  rewrite Hev.
  destruct (receive arrivals s1) as [s2 r2]. simpl in *. subst r2.
  reflexivity.
Qed.

(** When the send raised, [query] ends there: nothing is awaited. *)
Lemma query_send_raised (msg : string) (args : list Value) (kwargs : Kwargs)
    (arrivals : list (string * list Value)) (s : Live) :
  next_send_raises s = true ->
  query msg args kwargs arrivals s
  = (fst (query_send msg args kwargs s),
     Raised (send_failure_outcome (OSC_BACKEND s) msg args)).
Proof.
  intros Hsend.
  pose proof (query_send_state msg args kwargs s) as H. cbv zeta in H.
  destruct H as (_ & _ & _ & _ & _ & _ & _ & Hres). rewrite Hsend in Hres.
  unfold query, bind.
  destruct (query_send msg args kwargs s) as [s1 r1]. simpl in *. subst r1.
  reflexivity.
Qed.




(** ** What a dispatch leaves alone *)

Ltac logged_or_not address data Hlog Hclean :=
  destruct (reformat_error (OSC_input address data)) as [?e|] eqn:Hlog;
  [|assert (Hclean : logs_cleanly (OSC_input address data) = true)
      by (unfold logs_cleanly; rewrite Hlog; reflexivity)].

Lemma handler_frame (address : string) (data : list Value)
    (types : option string) (s : Live) :
  let s' := fst (handler address data types s) in
  same_registry s s' /\
  osc_server_events s' = osc_server_events s /\
  query_address s' = query_address s /\
  length (event_flags s') = length (event_flags s) /\
  wire s' = wire s /\
  send_faults s' = send_faults s.
Proof.
  cbv zeta. unfold same_registry.
  logged_or_not address data Hlog Hclean.
  { rewrite (handler_log_rejected _ _ types _ s Hlog).
    repeat split; reflexivity. }
  destruct (handler_state address data types s Hclean) as (cs & r & _ & Hst).
  rewrite Hst.
  destruct r as [[]|e]; [|repeat split; reflexivity].
  destruct (decide (query_address s = Some address));
    [|repeat split; reflexivity].
  destruct (osc_server_events s !! address); simpl;
    repeat split; try reflexivity.
  apply length_insert.
Qed.

(** A message that is not at the pending address changes nothing of the
    pending-response state, whatever its push handlers do. *)
Lemma handler_uncorrelated (address : string) (data : list Value)
    (types : option string) (s : Live) :
  query_address s <> Some address ->
  same_pending s (fst (handler address data types s)).
Proof.
  intros Hq. unfold same_pending.
  logged_or_not address data Hlog Hclean.
  { rewrite (handler_log_rejected _ _ types _ s Hlog).
    repeat split; reflexivity. }
  destruct (handler_state address data types s Hclean) as (cs & r & _ & Hst).
  rewrite Hst.
  destruct r as [[]|e]; [|repeat split; reflexivity].
  destruct (decide (query_address s = Some address)); [contradiction|].
  repeat split; reflexivity.
Qed.

(** The only flag a dispatch can change is that of the event filed under
    the pending address. *)
Lemma handler_flags (address : string) (data : list Value)
    (types : option string) (s : Live) (e : nat) :
  (query_address s = Some address ->
   osc_server_events s !! address <> Some e) ->
  event_flags (fst (handler address data types s)) !! e = event_flags s !! e.
Proof.
  intros Hne.
  logged_or_not address data Hlog Hclean.
  { rewrite (handler_log_rejected _ _ types _ s Hlog). reflexivity. }
  destruct (handler_state address data types s Hclean) as (cs & r & _ & Hst).
  rewrite Hst.
  destruct r as [[]|x]; [|reflexivity].
  destruct (decide (query_address s = Some address)) as [Hq|Hq];
    [|reflexivity].
  specialize (Hne Hq).
  destruct (osc_server_events s !! address) as [ev|]; simpl; [|reflexivity].
  apply list_lookup_insert_ne. congruence.
Qed.

(** The calls of a dispatch that is not at the pending address, when the
    logger takes the input line and the push handlers return. *)
Lemma correlation_free_calls (address : string) (data : list Value)
    (types : option string) (s : Live) :
  logs_cleanly (OSC_input address data) = true ->
  quiet data (push_targets s address) = true ->
  query_address s <> Some address ->
  calls (fst (handler address data types s))
  = calls s ++ invocations data (push_targets s address)
    ++ special_calls s address data.
Proof.
  intros Hclean Hquiet Hq.
  destruct (handler_state address data types s Hclean)
    as (cs & r & Hloop & Hst).
  rewrite (for_each_call_quiet _ _ _ Hquiet) in Hloop.
  injection Hloop as Hcs Hr. subst r.
  simpl in Hcs. apply app_inv_head in Hcs. subst cs.
  rewrite Hst.
  destruct (decide (query_address s = Some address)); [contradiction|].
  reflexivity.
Qed.

Lemma receive_silent (ra : string) (arrivals : list (string * list Value)) :
  forall s : Live,
    query_address s = Some ra ->
    silent ra arrivals = true ->
    same_pending s (fst (receive arrivals s)).
Proof.
  induction arrivals as [|[a d] ms IH]; intros s Hq Hs.
  - unfold same_pending. repeat split; reflexivity.
  - simpl in Hs. apply andb_prop in Hs as [Ha Hs].
    apply negb_true_iff in Ha. apply String.eqb_neq in Ha.
    rewrite receive_cons. simpl fst. simpl snd.
    assert (Hne : query_address s <> Some a) by congruence.
    pose proof (handler_uncorrelated a d None s Hne) as (H1 & H2 & H3 & H4).
    assert (Hq' : query_address (fst (handler a d None s)) = Some ra)
      by congruence.
    destruct (IH _ Hq' Hs) as (K1 & K2 & K3 & K4).
    unfold same_pending. repeat split; congruence.
Qed.

(** A query whose send went through and whose response address stays
    silent takes the timeout path. *)
Lemma query_silent_times_out (msg : string) (args : list Value)
    (kwargs : Kwargs) (arrivals : list (string * list Value)) (s : Live) :
  next_send_raises s = false ->
  silent (effective_response_address msg kwargs) arrivals = true ->
  snd (query msg args kwargs arrivals s)
  = Raised (timeout_outcome msg args kwargs).
Proof.
  intros Hsend Hsil.
  rewrite (query_after_send _ _ _ _ _ Hsend).
  pose proof (query_send_state msg args kwargs s) as H. cbv zeta in H.
  destruct H as (_ & Hfl & Hqa & _).
  destruct (receive_silent _ _ _ Hqa Hsil) as (_ & Hfl' & _).
  apply query_resume_unset.
  apply is_set_fresh. congruence.
Qed.

(** ** Registration *)

Lemma add_handler_spec (address : string) (callback : Callback) (s : Live) :
  add_handler address callback s
  = (set_handlers
       (<[address := push_targets s address ++ [callback]]> (handlers s)) s,
     Returned tt).
Proof.
  unfold add_handler, push_targets. munfold. simpl.
  destruct (handlers s !! address) as [hs|] eqn:Hh; simpl.
  - rewrite Hh. reflexivity.
  - rewrite lookup_insert_eq. simpl. unfold set_handlers. simpl.
    rewrite insert_insert_eq. reflexivity.
Qed.

Lemma add_handlers_run (address : string) (cbs : list Callback) :
  forall s : Live,
    let s' := run (map (OpAddHandler address) cbs) s in
    push_targets s' address = push_targets s address ++ cbs /\
    same_pending s s' /\
    calls s' = calls s /\
    beat_callback s' = beat_callback s /\
    startup_callback s' = startup_callback s.
Proof.
  induction cbs as [|cb cbs IH]; intros s.
  - simpl. rewrite app_nil_r. unfold same_pending. repeat split; reflexivity.
  - cbv zeta. simpl. rewrite add_handler_spec. simpl.
    specialize (IH (set_handlers
      (<[address := push_targets s address ++ [cb]]> (handlers s)) s)).
    cbv zeta in IH.
    destruct IH as (Hp & (P1 & P2 & P3 & P4) & Hc & Hb & Hs).
    unfold same_pending. rewrite Hp.
    unfold push_targets at 1. simpl. rewrite lookup_insert_eq. simpl.
    rewrite <- app_assoc. simpl.
    repeat split; assumption.
Qed.

(** ** Events that can no longer be set *)

Lemma is_set_lookup (e : nat) (s s' : Live) :
  event_flags s' !! e = event_flags s !! e -> is_set e s' = is_set e s.
Proof. intros H. unfold is_set. rewrite H. reflexivity. Qed.

Lemma superseded_step (e : nat) (o : Op) (s : Live) :
  superseded e s -> superseded e (step o s).
Proof.
  intros (Hlt & Hclear & Hother). unfold superseded.
  destruct o as [msg args|msg args kwargs|address data types|address cb|cb|cb];
    simpl.
  - destruct (cmd_frame msg args s) as (_ & (H1 & H2 & H3 & _) & _).
    rewrite H2, H3, H1. repeat split; try assumption.
    rewrite <- Hclear. apply is_set_lookup. rewrite H2. reflexivity.
  - pose proof (query_send_state msg args kwargs s) as H. cbv zeta in H.
    destruct H as (Hev & Hfl & Hqa & _).
    rewrite Hfl, Hqa, Hev. repeat split.
    + rewrite length_app. simpl. lia.
    + rewrite <- Hclear. apply is_set_lookup. rewrite Hfl.
      apply lookup_app_l. exact Hlt.
    + intros a Ha. injection Ha as <-. rewrite lookup_insert_eq.
      intros Heq. injection Heq as Heq. lia.
  - destruct (handler_frame address data types s)
      as (_ & Hev & Hqa & Hlen & _).
    rewrite Hlen, Hqa, Hev. repeat split; try assumption.
    rewrite <- Hclear. apply is_set_lookup. apply handler_flags.
    apply Hother.
  - rewrite add_handler_spec. simpl. repeat split; assumption.
  - repeat split; assumption.
  - repeat split; assumption.
Qed.

Lemma superseded_run (e : nat) (ops : list Op) :
  forall s : Live, superseded e s -> superseded e (run ops s).
Proof.
  induction ops as [|o ops IH]; intros s H; simpl.
  - exact H.
  - apply IH. apply superseded_step. exact H.
Qed.

Lemma flags_grow_step (o : Op) (s : Live) :
  (length (event_flags s) <= length (event_flags (step o s)))%nat.
Proof.
  destruct o as [msg args|msg args kwargs|address data types|address cb|cb|cb];
    simpl.
  - destruct (cmd_frame msg args s) as (_ & (_ & H2 & _) & _).
    rewrite H2. lia.
  - pose proof (query_send_state msg args kwargs s) as H. cbv zeta in H.
    destruct H as (_ & Hfl & _). rewrite Hfl, length_app. simpl. lia.
  - destruct (handler_frame address data types s) as (_ & _ & _ & Hlen & _).
    rewrite Hlen. lia.
  - rewrite add_handler_spec. simpl. lia.
  - lia.
  - lia.
Qed.

Lemma flags_grow_run (ops : list Op) :
  forall s : Live,
    (length (event_flags s) <= length (event_flags (run ops s)))%nat.
Proof.
  induction ops as [|o ops IH]; intros s; simpl.
  - lia.
  - pose proof (flags_grow_step o s). pose proof (IH (step o s)). lia.
Qed.

(** Issuing a query supersedes every event that exists and is unset. *)
Lemma query_send_supersedes (e : nat) (msg : string) (args : list Value)
    (kwargs : Kwargs) (s : Live) :
  (e < length (event_flags s))%nat ->
  is_set e s = false ->
  superseded e (fst (query_send msg args kwargs s)).
Proof.
  intros Hlt Hclear.
  pose proof (query_send_state msg args kwargs s) as H. cbv zeta in H.
  destruct H as (Hev & Hfl & Hqa & _).
  unfold superseded. rewrite Hfl, Hqa, Hev. repeat split.
  - rewrite length_app. simpl. lia.
  - rewrite <- Hclear. apply is_set_lookup. rewrite Hfl.
    apply lookup_app_l. exact Hlt.
  - intros a Ha. injection Ha as <-. rewrite lookup_insert_eq.
    intros Heq. injection Heq as Heq. lia.
Qed.

(** ** Claims *)


(** C2, amended: a push handler that raises ends the dispatch of that
    message.  The handlers registered before it have been invoked, the ones
    registered after it are not, the pending-response state is left as it
    was (no reply appended, no event set), and the exception leaves the
    dispatcher uncaught; the only line logged is the input line, which the
    logger has taken before any handler is called. *)
Theorem raising_handler_aborts_dispatch (s : Live) (address : string)
    (data : list Value) (types : option string)
    (l1 l2 : list Callback) (cb : Callback) (e : Exn) :
  logs_cleanly (OSC_input address data) = true ->
  handlers s !! address = Some (l1 ++ cb :: l2) ->
  quiet data l1 = true ->
  cb_body cb data = Some e ->
  let s' := fst (handler address data types s) in
  snd (handler address data types s) = Raised e /\
  calls s' = calls s ++ invocations data (l1 ++ [cb]) /\
  same_pending s s' /\
  debug_log s' = debug_log s ++ [OSC_input address data].
Proof.
  intros Hclean Hh Hq Hb.
  pose proof (for_each_call_raising data l1 l2 cb e
                (logged_input address data s) Hq Hb) as Hloop.
  assert (Hpt : push_targets s address = l1 ++ cb :: l2)
    by (unfold push_targets; rewrite Hh; reflexivity).
  rewrite <- Hpt in Hloop.
  rewrite (handler_result_raised _ _ types _ _ _ Hclean Hloop).
  unfold same_pending. repeat split; reflexivity.
Qed.

(** C3, amended: push delivery combines with either of the other two
    steps, which exclude each other.  Once the logger has taken the input
    line and the push handlers have returned, a message at the pending
    response address is appended to the reply, sets the event filed under
    that address and ends the dispatch: no beat or startup callback is
    invoked for it.  A message at any other address leaves the
    pending-response state alone and, at /live/beat or
    /remix/oscserver/startup, invokes the callback registered there. *)
Theorem correlation_excludes_special (s : Live) (address : string)
    (data : list Value) (types : option string) :
  logs_cleanly (OSC_input address data) = true ->
  quiet data (push_targets s address) = true ->
  let s' := fst (handler address data types s) in
  let pushed := invocations data (push_targets s address) in
  (forall ev,
      query_address s = Some address ->
      osc_server_events s !! address = Some ev ->
      snd (handler address data types s) = Returned tt /\
      calls s' = calls s ++ pushed /\
      query_rv s' = query_rv s ++ data /\
      event_flags s' = <[ev := true]> (event_flags s)) /\
  (query_address s <> Some address ->
      same_pending s s' /\
      calls s' = calls s ++ pushed ++ special_calls s address data) /\
  (forall cb,
      query_address s <> Some address ->
      address = "/live/beat" ->
      beat_callback s = Some cb ->
      has_arg cb = Returned false ->
      calls s' = calls s ++ pushed ++ [(cb, [])]) /\
  (forall cb,
      query_address s <> Some address ->
      address = "/remix/oscserver/startup" ->
      startup_callback s = Some cb ->
      calls s' = calls s ++ pushed ++ [(cb, [])]).
Proof.
  intros Hclean Hquiet s' pushed.
  assert (Hun : query_address s <> Some address ->
                calls s' = calls s ++ pushed ++ special_calls s address data).
  { intros Hq. apply correlation_free_calls; assumption. }
  split; [|split; [|split]].
  - intros ev Hq Hev. subst s'.
    rewrite (handler_correlated _ _ types _ ev Hclean Hq Hev Hquiet).
    repeat split; reflexivity.
  - intros Hq. split; [|exact (Hun Hq)].
    apply (handler_uncorrelated address data types s Hq).
  - intros cb Hq Ha Hb Harg. rewrite (Hun Hq). unfold special_calls.
    destruct (decide (query_address s = Some address)); [contradiction|].
    destruct (decide (address = "/live/beat")); [|contradiction].
    rewrite Hb, Harg. reflexivity.
  - intros cb Hq Ha Hb. rewrite (Hun Hq). unfold special_calls.
    destruct (decide (query_address s = Some address)); [contradiction|].
    destruct (decide (address = "/live/beat")) as [Hbeat|_].
    { rewrite Ha in Hbeat. discriminate Hbeat. }
    destruct (decide (address = "/remix/oscserver/startup")); [|contradiction].
    rewrite Hb. reflexivity.
Qed.

(** C4, amended: a query to which no message at its response address
    arrives before the wait ends fails with a LiveConnectionError, the class
    also raised when the send fails (by [query] and by [cmd]); the two
    failures differ in their message only.  Either error is raised after
    the failure has been logged, so this is for a debug line that the
    logger takes. *)
Theorem query_failures_differ_by_message (s : Live) (msg : string)
    (args : list Value) (kwargs : Kwargs)
    (arrivals : list (string * list Value)) :
  silent (effective_response_address msg kwargs) arrivals = true ->
  logs_cleanly
    (if next_send_raises s
     then During_cmd msg (cmd_payload (OSC_BACKEND s) args)
     else Timeout_during_query msg args kwargs) = true ->
  snd (query msg args kwargs arrivals s)
  = Raised (mkExn LiveConnectionError
              (if next_send_raises s then send_error_message
               else timeout_error_message)) /\
  (next_send_raises s = true ->
   snd (cmd msg args s)
   = Raised (mkExn LiveConnectionError send_error_message)) /\
  send_error_message <> timeout_error_message.
Proof.
  intros Hsil Hclean. split; [|split].
  - destruct (next_send_raises s) eqn:Hsend.
    + rewrite (query_send_raised _ _ _ _ _ Hsend). simpl.
      rewrite (send_failure_outcome_clean _ _ _ Hclean). reflexivity.
    + rewrite (query_silent_times_out _ _ _ _ _ Hsend Hsil).
      rewrite (timeout_outcome_clean _ _ _ Hclean). reflexivity.
  - intros Hsend. rewrite Hsend in Hclean.
    destruct (cmd_failed msg args s Hsend) as (-> & _).
    rewrite (send_failure_outcome_clean _ _ _ Hclean). reflexivity.
  - discriminate.
Qed.

(** C5, amended: when the send of a query fails, the LiveConnectionError
    (raised once the logger has taken the line written on that path)
    reaches the caller at once, without any wait, and whatever the query
    installed stays: its new, unset event is filed under the effective
    response address, that address is the pending one and the reply is
    empty.  Nothing was put on the wire and no callback was invoked. *)
Theorem failed_send_propagates (s : Live) (msg : string)
    (args : list Value) (kwargs : Kwargs)
    (arrivals : list (string * list Value)) :
  next_send_raises s = true ->
  logs_cleanly (During_cmd msg (cmd_payload (OSC_BACKEND s) args)) = true ->
  let out := query msg args kwargs arrivals s in
  let ra := effective_response_address msg kwargs in
  out = (fst (query_send msg args kwargs s),
         Raised (mkExn LiveConnectionError send_error_message)) /\
  osc_server_events (fst out) !! ra = Some (length (event_flags s)) /\
  is_set (length (event_flags s)) (fst out) = false /\
  query_address (fst out) = Some ra /\
  query_rv (fst out) = [] /\
  wire (fst out) = wire s /\
  calls (fst out) = calls s.
Proof.
  intros Hsend Hclean. cbv zeta.
  rewrite (query_send_raised _ _ _ _ _ Hsend). simpl fst.
  rewrite (send_failure_outcome_clean _ _ _ Hclean).
  pose proof (query_send_state msg args kwargs s) as H. cbv zeta in H.
  rewrite Hsend in H.
  destruct H as (Hev & Hfl & Hqa & Hrv & _ & Hcalls & Hwire & _).
  repeat split; try assumption.
  - rewrite Hev. apply lookup_insert_eq.
  - apply is_set_fresh. exact Hfl.
Qed.


(** C7: the pending-query state is one slot.  A first query blocks on the
    event [e1] it installed.  While it is still blocked (whatever happened
    in between, its event is unset) a second query is issued, for any
    response address: the pending address and the reply are overwritten,
    the event filed under the pending address is the second query's new
    event, and from then on a dispatch can set no other event than the one
    of the newest query.  Whatever sends, queries, dispatches and
    registrations follow, [e1] is never set, and the first query can only
    end on its timeout path: it raises what that path raises, the timeout
    LiveConnectionError when the logger takes the line written there. *)
Theorem newer_query_supersedes (s0 : Live)
    (msg1 : string) (args1 : list Value) (kw1 : Kwargs) (ops1 : list Op)
    (msg2 : string) (args2 : list Value) (kw2 : Kwargs) (ops2 : list Op) :
  let e1 := length (event_flags s0) in
  let s1 := run ops1 (fst (query_send msg1 args1 kw1 s0)) in
  let e2 := length (event_flags s1) in
  let s2 := fst (query_send msg2 args2 kw2 s1) in
  let s3 := run ops2 s2 in
  is_set e1 s1 = false ->
  query_event (effective_response_address msg1 kw1)
    (fst (query_send msg1 args1 kw1 s0))
  = (fst (query_send msg1 args1 kw1 s0), Returned e1) /\
  query_address s2 = Some (effective_response_address msg2 kw2) /\
  query_rv s2 = [] /\
  osc_server_events s2 !! effective_response_address msg2 kw2 = Some e2 /\
  e2 <> e1 /\
  (forall address data types e,
      e <> e2 ->
      event_flags (fst (handler address data types s2)) !! e
      = event_flags s2 !! e) /\
  is_set e1 s3 = false /\
  snd (query_resume msg1 args1 kw1 e1 s3)
  = Raised (timeout_outcome msg1 args1 kw1) /\
  (logs_cleanly (Timeout_during_query msg1 args1 kw1) = true ->
   snd (query_resume msg1 args1 kw1 e1 s3)
   = Raised (mkExn LiveConnectionError timeout_error_message)).
Proof.
  intros e1 s1 e2 s2 s3 Hblocked.
  pose proof (query_send_state msg1 args1 kw1 s0) as H1. cbv zeta in H1.
  destruct H1 as (_ & Hfl1 & _).
  assert (Hlt : (e1 < length (event_flags s1))%nat).
  { pose proof (flags_grow_run ops1 (fst (query_send msg1 args1 kw1 s0))) as G.
    fold s1 in G. rewrite Hfl1, length_app in G. simpl in G.
    subst e1. lia. }
  pose proof (query_send_state msg2 args2 kw2 s1) as H2. cbv zeta in H2.
  fold s2 e2 in H2. destruct H2 as (Hev2 & _ & Hqa2 & Hrv2 & _).
  assert (Hlk : osc_server_events s2 !! effective_response_address msg2 kw2
                = Some e2).
  { rewrite Hev2. apply lookup_insert_eq. }
  pose proof (query_send_supersedes e1 msg2 args2 kw2 s1 Hlt Hblocked) as Hsup.
  fold s2 in Hsup.
  pose proof (superseded_run e1 ops2 s2 Hsup) as (_ & Hclear3 & _).
  fold s3 in Hclear3.
  destruct (query_resume_unset msg1 args1 kw1 e1 s3 Hclear3) as (Hres & _).
  split; [apply query_event_installed|].
  split; [exact Hqa2|]. split; [exact Hrv2|]. split; [exact Hlk|].
  split; [subst e2; lia|].
  split.
  { intros address data types e Hne. apply handler_flags.
    intros Ha. rewrite Hqa2 in Ha. injection Ha as <-. rewrite Hlk.
    congruence. }
  split; [exact Hclear3|]. split; [exact Hres|].
  intros Hclean. rewrite Hres.
  rewrite (timeout_outcome_clean _ _ _ Hclean). reflexivity.
Qed.

(** C8, amended: [add_handler] appends the callback to the list kept for
    the address, starting that list when the address has none, whether or
    not the callback is already in it.  After registering the callbacks
    [cbs] in turn, one message at the address whose input line the logger
    takes invokes the registered callbacks in registration order, each with
    the message's arguments and once per registration, up to and including
    the first one that raises; when all of them return, every one has been
    invoked, and the only call that can follow them is the one to the beat
    or startup callback. *)
Theorem registered_handlers_all_invoked (s : Live) (address : string)
    (cbs : list Callback) (data : list Value) (types : option string) :
  let s1 := run (map (OpAddHandler address) cbs) s in
  let s2 := fst (handler address data types s1) in
  (forall cb,
      add_handler address cb s
      = (set_handlers
           (<[address := push_targets s address ++ [cb]]> (handlers s)) s,
         Returned tt)) /\
  push_targets s1 address = push_targets s address ++ cbs /\
  (logs_cleanly (OSC_input address data) = true ->
   quiet data (push_targets s address ++ cbs) = true ->
   calls s2
   = calls s ++ invocations data (push_targets s address ++ cbs)
     ++ special_calls s1 address data /\
   (handlers s !! address = None ->
    address <> "/live/beat" ->
    address <> "/remix/oscserver/startup" ->
    calls s2 = calls s ++ invocations data cbs)) /\
  (forall l1 cb l2 e,
      logs_cleanly (OSC_input address data) = true ->
      push_targets s address ++ cbs = l1 ++ cb :: l2 ->
      quiet data l1 = true ->
      cb_body cb data = Some e ->
      snd (handler address data types s1) = Raised e /\
      calls s2 = calls s ++ invocations data (l1 ++ [cb])).
Proof.
  intros s1 s2.
  pose proof (add_handlers_run address cbs s) as H. cbv zeta in H.
  fold s1 in H. destruct H as (Hp & (_ & _ & Hqa & _) & Hc & _).
  split; [intros cb; apply add_handler_spec|].
  split; [exact Hp|].
  split.
  - intros Hclean Hquiet.
    assert (Hcalls : calls s2
      = calls s ++ invocations data (push_targets s address ++ cbs)
        ++ special_calls s1 address data).
    { assert (Hq1 : quiet data (push_targets s1 address) = true)
        by (rewrite Hp; exact Hquiet).
      subst s2.
      destruct (decide (query_address s1 = Some address)) as [Hq|Hq].
      - destruct (handler_state address data types s1 Hclean)
          as (cs & r & Hloop & Hst).
        rewrite (for_each_call_quiet _ _ _ Hq1) in Hloop.
        injection Hloop as Hcs Hr. subst r.
        simpl in Hcs. apply app_inv_head in Hcs. subst cs.
        rewrite Hst. unfold special_calls.
        destruct (decide (query_address s1 = Some address)); [|contradiction].
        rewrite app_nil_r, Hp, Hc.
        destruct (osc_server_events s1 !! address); reflexivity.
      - pose proof (correlation_free_calls address data types s1
                      Hclean Hq1 Hq) as K.
        rewrite K, Hp, Hc. reflexivity. }
    split; [exact Hcalls|].
    intros Hnone Hb Hs. rewrite Hcalls.
    unfold push_targets at 1. rewrite Hnone. simpl.
    unfold special_calls.
    destruct (decide (query_address s1 = Some address));
      [rewrite app_nil_r; reflexivity|].
    destruct (decide (address = "/live/beat")); [contradiction|].
    destruct (decide (address = "/remix/oscserver/startup")); [contradiction|].
    rewrite app_nil_r. reflexivity.
  - intros l1 cb l2 e Hclean Hsplit Hq Hb.
    pose proof (for_each_call_raising data l1 l2 cb e
                  (logged_input address data s1) Hq Hb) as Hloop.
    rewrite <- Hsplit, <- Hp in Hloop.
    subst s2.
    rewrite (handler_result_raised _ _ types _ _ _ Hclean Hloop).
    simpl. rewrite Hc. split; reflexivity.
Qed.

(** C9, amended: when a message arrives at /live/beat that is not the
    reply awaited by the pending query, a beat callback is registered, the
    logger has taken the input line and the push handlers on /live/beat
    have returned, the callback is invoked once, after them, according to
    the number of parameters its signature declares: with no argument when
    it declares none, and with the first argument of the message when it
    declares one or more and the message has an argument. *)
Theorem beat_callback_by_arity (s : Live) (data : list Value)
    (types : option string) (cb : Callback) (n : nat) :
  beat_callback s = Some cb ->
  cb_signature cb = Some n ->
  query_address s <> Some "/live/beat" ->
  logs_cleanly (OSC_input "/live/beat" data) = true ->
  quiet data (push_targets s "/live/beat") = true ->
  let s' := fst (handler "/live/beat" data types s) in
  let pushed := invocations data (push_targets s "/live/beat") in
  (n = 0%nat -> calls s' = calls s ++ pushed ++ [(cb, [])]) /\
  (forall d0 rest,
      (0 < n)%nat -> data = d0 :: rest ->
      calls s' = calls s ++ pushed ++ [(cb, [d0])]).
Proof.
  intros Hb Hsig Hq Hclean Hquiet s' pushed.
  pose proof (correlation_free_calls "/live/beat" data types s
                Hclean Hquiet Hq) as K.
  fold s' pushed in K.
  assert (Hsp : special_calls s "/live/beat" data
                = match (0 <? n)%nat, data with
                  | true, d0 :: _ => [(cb, [d0])]
                  | false, _ => [(cb, [])]
                  | _, _ => []
                  end).
  { unfold special_calls.
    destruct (decide (query_address s = Some "/live/beat")); [contradiction|].
    destruct (decide ("/live/beat" = "/live/beat")); [|contradiction].
    rewrite Hb. unfold has_arg. rewrite Hsig. reflexivity. }
  rewrite Hsp in K. split.
  - intros ->. exact K.
  - intros d0 rest Hn ->. apply Nat.ltb_lt in Hn. rewrite Hn in K. exact K.
Qed.

(** C10: [cmd] hands the message to the backend and does nothing else to
    the engine: the handler registry, the events map, the flags of the
    events, the pending address, the accumulated reply and the dedicated
    callbacks are as before, and no callback is invoked.  A send that goes
    through puts exactly the message on the wire; one that raises puts
    nothing there and ends in the exception of the failure path, the
    LiveConnectionError when the logger takes the line written there.
    (The debug log gets the lines.) *)
Theorem cmd_only_sends (s : Live) (msg : string) (args : list Value) :
  let s' := fst (cmd msg args s) in
  handlers s' = handlers s /\
  osc_server_events s' = osc_server_events s /\
  event_flags s' = event_flags s /\
  query_address s' = query_address s /\
  query_rv s' = query_rv s /\
  beat_callback s' = beat_callback s /\
  startup_callback s' = startup_callback s /\
  calls s' = calls s /\
  (if next_send_raises s
   then wire s' = wire s /\
        snd (cmd msg args s)
        = Raised (send_failure_outcome (OSC_BACKEND s) msg args) /\
        (logs_cleanly (During_cmd msg (cmd_payload (OSC_BACKEND s) args))
         = true ->
         snd (cmd msg args s)
         = Raised (mkExn LiveConnectionError send_error_message))
   else snd (cmd msg args s) = Returned tt /\
        wire s' = wire s ++ [(msg, cmd_payload (OSC_BACKEND s) args)]).
Proof.
  cbv zeta.
  destruct (cmd_frame msg args s)
    as ((_ & Hb & Hs & Hh & _) & (P1 & P2 & P3 & P4) & Hc).
  repeat (split; [assumption|]).
  destruct (next_send_raises s) eqn:Hsend.
  - destruct (cmd_failed msg args s Hsend) as (Hres & Hwire).
    split; [exact Hwire|]. split; [exact Hres|].
    intros Hclean. rewrite Hres.
    rewrite (send_failure_outcome_clean _ _ _ Hclean). reflexivity.
  - apply cmd_sent. exact Hsend.
Qed.

(** ** Further properties of [query] *)

Lemma for_each_call_loud (data : list Value) (hs : list Callback) :
  forall s : Live,
    quiet data hs = false ->
    exists cs e,
      for_each hs (fun h => call h data) s
      = (set_calls (calls s ++ cs) s, Raised e).
Proof.
  induction hs as [|h hs IH]; intros s Hq; [discriminate|].
  simpl in Hq. simpl. unfold bind.
  destruct (cb_body h data) as [e|] eqn:Hb.
  - rewrite (call_raises _ _ _ _ Hb). eauto.
  - rewrite (call_returns _ _ _ Hb). simpl in Hq.
    destruct (IH (set_calls (calls s ++ [(h, data)]) s) Hq) as (cs & e & ->).
    rewrite set_calls_twice. eauto.
Qed.

(** One dispatch while a query is pending on [ra] with the existing event
    [ev] filed there: the reply grows by the message's arguments and the
    event is set exactly when the message is accepted. *)
Lemma handler_pending (s0 t : Live) (ra : string) (ev : nat)
    (m : string * list Value) :
  handlers t = handlers s0 ->
  query_address t = Some ra ->
  osc_server_events t !! ra = Some ev ->
  (ev < length (event_flags t))%nat ->
  let t' := fst (handler (fst m) (snd m) None t) in
  query_rv t' = query_rv t ++ (if accepted s0 ra m then snd m else []) /\
  is_set ev t' = is_set ev t || accepted s0 ra m.
Proof.
  intros Hh Hqa Hev Hlt. destruct m as [a d]. cbv zeta. simpl fst. simpl snd.
  unfold accepted. simpl fst. simpl snd.
  assert (Hpt : push_targets s0 ra = push_targets t ra)
    by (unfold push_targets; rewrite Hh; reflexivity).
  rewrite Hpt.
  destruct (String.eqb_spec a ra) as [->|Hne].
  - unfold logs_cleanly at 1 2.
    destruct (reformat_error (OSC_input ra d)) as [x|] eqn:Hlog.
    { rewrite (handler_log_rejected _ _ None _ t Hlog). simpl.
      rewrite app_nil_r, orb_false_r. split; reflexivity. }
    assert (Hclean : logs_cleanly (OSC_input ra d) = true)
      by (unfold logs_cleanly; rewrite Hlog; reflexivity).
    destruct (quiet d (push_targets t ra)) eqn:Hq; simpl.
    + rewrite (handler_correlated ra d None t ev Hclean Hqa Hev Hq). simpl.
      split; [reflexivity|].
      unfold is_set at 1. simpl.
      rewrite list_lookup_insert_eq by exact Hlt.
      rewrite orb_true_r. reflexivity.
    + destruct (for_each_call_loud d _ (logged_input ra d t) Hq)
        as (cs & e & Hloop).
      rewrite (handler_result_raised _ _ None _ _ _ Hclean Hloop). simpl.
      rewrite app_nil_r, orb_false_r. split; reflexivity.
  - simpl. rewrite app_nil_r, orb_false_r.
    assert (Hq : query_address t <> Some a) by congruence.
    destruct (handler_uncorrelated a d None t Hq) as (_ & H2 & _ & H4).
    split; [exact H4|]. apply is_set_lookup. rewrite H2. reflexivity.
Qed.

Lemma receive_pending (s0 : Live) (ra : string) (ev : nat)
    (arrivals : list (string * list Value)) :
  forall t : Live,
    handlers t = handlers s0 ->
    query_address t = Some ra ->
    osc_server_events t !! ra = Some ev ->
    (ev < length (event_flags t))%nat ->
    let t' := fst (receive arrivals t) in
    query_rv t' = query_rv t ++ replies s0 ra arrivals /\
    is_set ev t' = is_set ev t || answered s0 ra arrivals.
Proof.
  induction arrivals as [|m ms IH]; intros t Hh Hqa Hev Hlt.
  - cbv zeta. simpl. rewrite app_nil_r, orb_false_r. split; reflexivity.
  - cbv zeta. rewrite receive_cons.
    pose proof (handler_pending s0 t ra ev m Hh Hqa Hev Hlt) as (Hrv & Hset).
    destruct (handler_frame (fst m) (snd m) None t)
      as ((_ & _ & _ & Hh' & _) & Hev' & Hqa' & Hlen & _).
    set (t1 := fst (handler (fst m) (snd m) None t)) in *.
    assert (K : let t' := fst (receive ms t1) in
                query_rv t' = query_rv t1 ++ replies s0 ra ms /\
                is_set ev t' = is_set ev t1 || answered s0 ra ms).
    { apply IH; congruence. }
    cbv zeta in K. destruct K as (K1 & K2).
    rewrite K1, K2, Hrv, Hset. simpl.
    rewrite <- app_assoc, orb_assoc. split; reflexivity.
Qed.

(** The reply and the event of a query when the receiver has handled the
    arrivals. *)
Lemma query_wait_state (msg : string) (args : list Value) (kwargs : Kwargs)
    (arrivals : list (string * list Value)) (s : Live) :
  let ra := effective_response_address msg kwargs in
  let t := fst (receive arrivals (fst (query_send msg args kwargs s))) in
  query_rv t = replies s ra arrivals /\
  is_set (length (event_flags s)) t = answered s ra arrivals.
Proof.
  pose proof (query_send_state msg args kwargs s) as H. cbv zeta in H.
  destruct H as (Hev & Hfl & Hqa & Hrv & (_ & _ & _ & Hh & _) & _).
  cbv zeta.
  set (ra := effective_response_address msg kwargs) in *.
  set (s1 := fst (query_send msg args kwargs s)) in *.
  assert (Hlk : osc_server_events s1 !! ra = Some (length (event_flags s)))
    by (rewrite Hev; apply lookup_insert_eq).
  assert (Hlt : (length (event_flags s) < length (event_flags s1))%nat)
    by (rewrite Hfl, length_app; simpl; lia).
  pose proof (receive_pending s ra _ arrivals s1 Hh Hqa Hlk Hlt) as K.
  cbv zeta in K. destruct K as (K1 & K2).
  rewrite (is_set_fresh s1 _ Hfl) in K2. rewrite Hrv in K1.
  split; assumption.
Qed.

Lemma query_outcome (msg : string) (args : list Value) (kwargs : Kwargs)
    (arrivals : list (string * list Value)) (s : Live) :
  next_send_raises s = false ->
  snd (query msg args kwargs arrivals s)
  = (if answered s (effective_response_address msg kwargs) arrivals
     then Returned (replies s (effective_response_address msg kwargs) arrivals)
     else Raised (timeout_outcome msg args kwargs)).
Proof.
  intros Hsend. rewrite (query_after_send _ _ _ _ _ Hsend).
  pose proof (query_wait_state msg args kwargs arrivals s) as K.
  cbv zeta in K. destruct K as (K1 & K2).
  destruct (answered s _ arrivals).
  - rewrite (query_resume_set _ _ _ _ _ K2). rewrite K1. reflexivity.
  - apply query_resume_unset. exact K2.
Qed.

(** X1: a query whose send goes through returns, in arrival order, the
    concatenated arguments of all the messages that arrived at its response
    address while it waited and were dispatched up to the correlation step
    (the logger took their input line and their push handlers returned);
    messages at other addresses, messages the logger refused and messages
    whose push handler raised contribute nothing, and with no accepted
    message the query ends on its timeout path.  Either way the engine is
    left with that concatenation as its reply, and nothing that was in the
    reply or any event set before the call plays a part. *)
Theorem query_returns_merged_replies (s : Live) (msg : string)
    (args : list Value) (kwargs : Kwargs)
    (arrivals : list (string * list Value)) :
  next_send_raises s = false ->
  let ra := effective_response_address msg kwargs in
  let out := query msg args kwargs arrivals s in
  snd out = (if answered s ra arrivals
             then Returned (replies s ra arrivals)
             else Raised (timeout_outcome msg args kwargs)) /\
  query_rv (fst out) = replies s ra arrivals /\
  is_set (length (event_flags s)) (fst out) = answered s ra arrivals.
Proof.
  intros Hsend ra out.
  pose proof (query_wait_state msg args kwargs arrivals s) as K.
  cbv zeta in K. fold ra in K. destruct K as (K1 & K2).
  split; [apply query_outcome; exact Hsend|].
  subst out. rewrite (query_after_send _ _ _ _ _ Hsend).
  destruct (answered s ra arrivals) eqn:Ha.
  - rewrite (query_resume_set _ _ _ _ _ K2). simpl. split; assumption.
  - destruct (query_resume_unset msg args kwargs _ _ K2)
      as (_ & (_ & Hfl & _ & Hrv)).
    rewrite Hrv. split; [exact K1|].
    rewrite <- K2. apply is_set_lookup. rewrite Hfl. reflexivity.
Qed.

Lemma replies_same_handlers (s t : Live) (ra : string)
    (arrivals : list (string * list Value)) :
  handlers s = handlers t ->
  replies s ra arrivals = replies t ra arrivals /\
  answered s ra arrivals = answered t ra arrivals.
Proof.
  intros Hh. unfold replies, answered, accepted, push_targets.
  rewrite Hh. split; reflexivity.
Qed.

(** The line written when a send fails reads the same to the logger
    whichever backend shaped the arguments. *)
Lemma send_failure_outcome_backend (b1 b2 : Backend) (msg : string)
    (args : list Value) :
  send_failure_outcome b1 msg args = send_failure_outcome b2 msg args.
Proof.
  unfold send_failure_outcome, reformat_error.
  destruct b1, b2; try reflexivity;
    destruct args as [|v [|w rest]]; reflexivity.
Qed.

(** X2: the outcome of a query does not depend on the engine's history:
    from two states with the same registered handlers and the same fate of
    the next send, the same call with the same arrivals gives the same
    result, whatever replies, pending address or events earlier queries and
    late messages left behind. *)
Theorem query_outcome_ignores_history (s t : Live) (msg : string)
    (args : list Value) (kwargs : Kwargs)
    (arrivals : list (string * list Value)) :
  handlers s = handlers t ->
  next_send_raises s = next_send_raises t ->
  snd (query msg args kwargs arrivals s)
  = snd (query msg args kwargs arrivals t).
Proof.
  intros Hh Hsend. destruct (next_send_raises s) eqn:Hs; symmetry in Hsend.
  - rewrite (query_send_raised _ _ _ _ _ Hs).
    rewrite (query_send_raised _ _ _ _ _ Hsend). simpl.
    rewrite (send_failure_outcome_backend (OSC_BACKEND s) (OSC_BACKEND t)).
    reflexivity.
  - rewrite (query_outcome _ _ _ _ _ Hs), (query_outcome _ _ _ _ _ Hsend).
    destruct (replies_same_handlers s t
                (effective_response_address msg kwargs) arrivals Hh)
      as (-> & ->).
    reflexivity.
Qed.

(** X3: what [query] can raise.  It is a LiveConnectionError, or the
    exception the logger raised on the line written on the send-failure or
    timeout path.  The lookup of the event the caller waits on cannot fail,
    and an exception raised in the receiver, by a push handler or by the
    logger on an input line, never reaches the caller. *)
Theorem query_raises_only_connection_error (s : Live) (msg : string)
    (args : list Value) (kwargs : Kwargs)
    (arrivals : list (string * list Value)) (e : Exn) :
  snd (query msg args kwargs arrivals s) = Raised e ->
  exn_class e = LiveConnectionError \/
  reformat_error (During_cmd msg (cmd_payload (OSC_BACKEND s) args)) = Some e \/
  reformat_error (Timeout_during_query msg args kwargs) = Some e.
Proof.
  destruct (next_send_raises s) eqn:Hs.
  - rewrite (query_send_raised _ _ _ _ _ Hs). simpl. intros [= <-].
    unfold send_failure_outcome.
    destruct (reformat_error _) as [x|]; [right; left|left]; reflexivity.
  - rewrite (query_outcome _ _ _ _ _ Hs).
    destruct (answered s _ arrivals); [discriminate|].
    intros [= <-]. unfold timeout_outcome.
    destruct (reformat_error _) as [x|]; [right; right|left]; reflexivity.
Qed.

(** ** What no operation undoes *)

Lemma is_set_in_range (e : nat) (s : Live) :
  is_set e s = true -> (e < length (event_flags s))%nat.
Proof.
  unfold is_set. destruct (event_flags s !! e) as [b|] eqn:H; [|discriminate].
  intros _. apply lookup_lt_Some in H. exact H.
Qed.

Lemma handler_keeps_set (address : string) (data : list Value)
    (types : option string) (e : nat) (s : Live) :
  is_set e s = true ->
  is_set e (fst (handler address data types s)) = true.
Proof.
  intros Hset. pose proof (is_set_in_range e s Hset) as Hlt.
  logged_or_not address data Hlog Hclean.
  { rewrite (handler_log_rejected _ _ types _ s Hlog). exact Hset. }
  destruct (handler_state address data types s Hclean) as (cs & r & _ & Hst).
  rewrite Hst.
  destruct r as [[]|x]; [|exact Hset].
  destruct (decide (query_address s = Some address)); [|exact Hset].
  destruct (osc_server_events s !! address) as [ev|]; [|exact Hset].
  unfold is_set. simpl.
  destruct (decide (ev = e)) as [->|Hne].
  - rewrite list_lookup_insert_eq by exact Hlt. reflexivity.
  - rewrite list_lookup_insert_ne by exact Hne. exact Hset.
Qed.

Lemma step_keeps_set (e : nat) (o : Op) (s : Live) :
  is_set e s = true -> is_set e (step o s) = true.
Proof.
  intros Hset. pose proof (is_set_in_range e s Hset) as Hlt.
  destruct o as [msg args|msg args kwargs|address data types|address cb|cb|cb];
    simpl.
  - destruct (cmd_frame msg args s) as (_ & (_ & H2 & _) & _).
    rewrite <- Hset. apply is_set_lookup. rewrite H2. reflexivity.
  - pose proof (query_send_state msg args kwargs s) as H. cbv zeta in H.
    destruct H as (_ & Hfl & _).
    rewrite <- Hset. apply is_set_lookup. rewrite Hfl.
    apply lookup_app_l. exact Hlt.
  - apply handler_keeps_set. exact Hset.
  - rewrite add_handler_spec. exact Hset.
  - exact Hset.
  - exact Hset.
Qed.

(** X4: an event that has been set stays set: no send, query, dispatch or
    registration ever clears a flag, so a reply that arrived is never
    taken back from the caller waiting for it. *)
Theorem set_event_stays_set (e : nat) (ops : list Op) (s : Live) :
  is_set e s = true ->
  is_set e (run ops s) = true.
Proof.
  revert s. induction ops as [|o ops IH]; intros s Hset; simpl.
  - exact Hset.
  - apply IH. apply step_keeps_set. exact Hset.
Qed.

Lemma step_registry (o : Op) (s : Live) (a : string) :
  (exists k, push_targets (step o s) a = push_targets s a ++ k) /\
  (is_Some (osc_server_events s !! a) ->
   is_Some (osc_server_events (step o s) !! a)).
Proof.
  destruct o as [msg args|msg args kwargs|address data types|address cb|cb|cb];
    simpl.
  - destruct (cmd_frame msg args s)
      as ((_ & _ & _ & Hh & _) & (H1 & _) & _).
    unfold push_targets. rewrite Hh, H1. split; [|tauto].
    exists []. rewrite app_nil_r. reflexivity.
  - pose proof (query_send_state msg args kwargs s) as H. cbv zeta in H.
    destruct H as (Hev & _ & _ & _ & (_ & _ & _ & Hh & _) & _).
    unfold push_targets. rewrite Hh, Hev. split.
    + exists []. rewrite app_nil_r. reflexivity.
    + intros Hs.
      destruct (decide (effective_response_address msg kwargs = a)) as [->|Hne].
      * rewrite lookup_insert_eq. eauto.
      * rewrite lookup_insert_ne by exact Hne. exact Hs.
  - destruct (handler_frame address data types s)
      as ((_ & _ & _ & Hh & _) & Hev & _).
    unfold push_targets. rewrite Hh, Hev. split; [|tauto].
    exists []. rewrite app_nil_r. reflexivity.
  - rewrite add_handler_spec. simpl. split; [|tauto].
    destruct (decide (address = a)) as [->|Hne].
    + exists [cb]. unfold push_targets at 1. simpl.
      rewrite lookup_insert_eq. reflexivity.
    + exists []. unfold push_targets at 1. simpl.
      rewrite lookup_insert_ne by exact Hne. rewrite app_nil_r. reflexivity.
  - split; [|tauto]. exists []. rewrite app_nil_r. reflexivity.
  - split; [|tauto]. exists []. rewrite app_nil_r. reflexivity.
Qed.

(** X5: nothing is ever unregistered.  Whatever operations follow, the
    callbacks registered for an address remain registered, in the same
    order, ahead of any registered later, and an address that has an event
    filed in [osc_server_events] keeps having one. *)
Theorem registrations_are_permanent (ops : list Op) (s : Live) (a : string) :
  (exists later,
      push_targets (run ops s) a = push_targets s a ++ later) /\
  (is_Some (osc_server_events s !! a) ->
   is_Some (osc_server_events (run ops s) !! a)).
Proof.
  revert s. induction ops as [|o ops IH]; intros s; simpl.
  - split; [|tauto]. exists []. rewrite app_nil_r. reflexivity.
  - destruct (step_registry o s a) as ((k1 & H1) & E1).
    destruct (IH (step o s)) as ((k2 & H2) & E2).
    split; [|tauto].
    exists (k1 ++ k2). rewrite H2, H1, app_assoc. reflexivity.
Qed.

Lemma pending_filed_step (o : Op) (s : Live) :
  pending_filed s -> pending_filed (step o s).
Proof.
  intros Hinv.
  destruct o as [msg args|msg args kwargs|address data types|address cb|cb|cb];
    simpl.
  - destruct (cmd_frame msg args s) as (_ & (H1 & H2 & H3 & _) & _).
    unfold pending_filed. rewrite H1, H2, H3. exact Hinv.
  - pose proof (query_send_state msg args kwargs s) as H. cbv zeta in H.
    destruct H as (Hev & Hfl & Hqa & _).
    unfold pending_filed. rewrite Hev, Hfl, Hqa.
    intros a [= <-]. exists (length (event_flags s)).
    rewrite lookup_insert_eq, length_app. simpl. split; [reflexivity|lia].
  - destruct (handler_frame address data types s)
      as (_ & Hev & Hqa & Hlen & _).
    unfold pending_filed. rewrite Hev, Hqa, Hlen. exact Hinv.
  - rewrite add_handler_spec. exact Hinv.
  - exact Hinv.
  - exact Hinv.
Qed.

Lemma pending_filed_run (ops : list Op) :
  forall s : Live, pending_filed s -> pending_filed (run ops s).
Proof.
  induction ops as [|o ops IH]; intros s H; simpl.
  - exact H.
  - apply IH. apply pending_filed_step. exact H.
Qed.

Lemma pending_filed_run_init (b : Backend) (ops : list Op) :
  pending_filed (run ops (init b)).
Proof. apply pending_filed_run. intros a Ha. discriminate Ha. Qed.

(** X6: in every state the engine can reach from its construction, the
    pending address (when a query has been issued) has an event filed under
    it, and that event exists: the dispatcher's lookup
    [osc_server_events[address]] at the pending address cannot fail. *)
Theorem pending_address_always_filed (b : Backend) (ops : list Op) :
  pending_filed (run ops (init b)).
Proof.
  intros a Ha. apply (pending_filed_run ops (init b)); [|exact Ha].
  intros a' Ha'. discriminate Ha'.
Qed.

Lemma step_pending_slot (o : Op) (s : Live) :
  issues_query o = false ->
  query_address (step o s) = query_address s /\
  osc_server_events (step o s) = osc_server_events s /\
  length (event_flags (step o s)) = length (event_flags s) /\
  exists more, query_rv (step o s) = query_rv s ++ more.
Proof.
  intros Hq.
  destruct o as [msg args|msg args kwargs|address data types|address cb|cb|cb];
    simpl; try discriminate.
  - destruct (cmd_frame msg args s) as (_ & (H1 & H2 & H3 & H4) & _).
    rewrite H1, H2, H3, H4. repeat split.
    exists []. rewrite app_nil_r. reflexivity.
  - destruct (handler_frame address data types s)
      as (_ & Hev & Hqa & Hlen & _).
    repeat split; try assumption.
    logged_or_not address data Hlog Hclean.
    { rewrite (handler_log_rejected _ _ types _ s Hlog).
      exists []. rewrite app_nil_r. reflexivity. }
    destruct (handler_state address data types s Hclean) as (cs & r & _ & Hst).
    rewrite Hst.
    destruct r as [[]|x]; [|exists []; rewrite app_nil_r; reflexivity].
    destruct (decide (query_address s = Some address));
      [|exists []; rewrite app_nil_r; reflexivity].
    destruct (osc_server_events s !! address); exists data; reflexivity.
  - rewrite add_handler_spec. simpl. repeat split.
    exists []. rewrite app_nil_r. reflexivity.
  - repeat split. exists []. rewrite app_nil_r. reflexivity.
  - repeat split. exists []. rewrite app_nil_r. reflexivity.
Qed.

(** X7: only issuing a query moves the pending slot.  Over any run of
    sends, dispatches and registrations that issues no query, the pending
    address and the events map stay as they are and no event is created,
    also after the query they belong to has returned or timed out; the
    reply is only ever extended. *)
Theorem pending_slot_outlives_query (ops : list Op) (s : Live) :
  forallb (fun o => negb (issues_query o)) ops = true ->
  query_address (run ops s) = query_address s /\
  osc_server_events (run ops s) = osc_server_events s /\
  length (event_flags (run ops s)) = length (event_flags s) /\
  exists more, query_rv (run ops s) = query_rv s ++ more.
Proof.
  revert s. induction ops as [|o ops IH]; intros s Hops; simpl.
  - repeat split. exists []. rewrite app_nil_r. reflexivity.
  - simpl in Hops. apply andb_prop in Hops as [Ho Hops].
    apply negb_true_iff in Ho.
    destruct (step_pending_slot o s Ho) as (A1 & A2 & A3 & (m1 & A4)).
    destruct (IH (step o s) Hops) as (B1 & B2 & B3 & (m2 & B4)).
    repeat split; try congruence.
    exists (m1 ++ m2). rewrite B4, A4, app_assoc. reflexivity.
Qed.

(** ** Where the dispatcher's exceptions come from *)

Lemma for_each_raise_origin (data : list Value) (hs : list Callback) :
  forall (s s' : Live) (e : Exn),
    for_each hs (fun h => call h data) s = (s', Raised e) ->
    exists cb, In cb hs /\ cb_body cb data = Some e.
Proof.
  induction hs as [|h hs IH]; intros s s' e H; simpl in H.
  - discriminate.
  - unfold bind in H. destruct (cb_body h data) as [x|] eqn:Hb.
    + rewrite (call_raises _ _ _ _ Hb) in H. injection H as _ <-.
      exists h. split; [left; reflexivity|exact Hb].
    + rewrite (call_returns _ _ _ Hb) in H.
      destruct (IH _ _ _ H) as (cb & Hin & Hcb).
      exists cb. split; [right; exact Hin|exact Hcb].
Qed.

Lemma call_raise_origin (cb : Callback) (args : list Value) (s : Live)
    (e : Exn) :
  snd (call cb args s) = Raised e -> cb_body cb args = Some e.
Proof.
  destruct (cb_body cb args) as [x|] eqn:Hb.
  - rewrite (call_raises _ _ _ _ Hb). simpl. congruence.
  - rewrite (call_returns _ _ _ Hb). discriminate.
Qed.

Lemma has_arg_raise_origin (cb : Callback) (e : Exn) :
  has_arg cb = Raised e -> cb_argspec cb = Raised e.
Proof.
  unfold has_arg. destruct (cb_signature cb); [discriminate|].
  destruct (cb_argspec cb); [discriminate|]. congruence.
Qed.

(** X8: in a state reachable from the engine's construction, an exception
    that leaves the dispatcher was raised by the logger on the input line,
    or by a callback registered for the message (a push handler of its
    address called with its arguments, the beat callback or its signature
    inspection at /live/beat, the startup callback at
    /remix/oscserver/startup), or is the IndexError of reading the first
    argument of an empty /live/beat message.  The dispatcher raises nothing
    else of its own, in particular no KeyError. *)
Theorem dispatcher_exceptions_come_from_callbacks (b : Backend)
    (ops : list Op) (address : string) (data : list Value)
    (types : option string) (e : Exn) :
  let s := run ops (init b) in
  snd (handler address data types s) = Raised e ->
  reformat_error (OSC_input address data) = Some e \/
  (exists cb, In cb (push_targets s address) /\ cb_body cb data = Some e) \/
  (exists cb, address = "/live/beat" /\ beat_callback s = Some cb /\
              (cb_argspec cb = Raised e \/
               exists args, cb_body cb args = Some e)) \/
  (exists cb, address = "/remix/oscserver/startup" /\
              startup_callback s = Some cb /\ cb_body cb [] = Some e) \/
  (address = "/live/beat" /\ data = [] /\
   e = mkExn IndexError "index out of range").
Proof.
  intros s. pose proof (pending_filed_run_init b ops) as Hinv. fold s in Hinv.
  logged_or_not address data Hlog Hclean.
  { rewrite (handler_log_rejected _ _ types _ s Hlog). simpl.
    intros [= <-]. left. reflexivity. }
  intros H. right. revert H.
  destruct (for_each_call_frame data (push_targets s address)
              (logged_input address data s)) as (cs & r & Hloop).
  enter_handler Hclean Hloop.
  destruct r as [[]|x]; simpl.
  2:{ intros [= <-]. left.
      apply (for_each_raise_origin _ _ _ _ _ Hloop). }
  destruct (decide (query_address s = Some address)) as [Hq|Hq]; simpl.
  { destruct (Hinv address Hq) as (ev & Hev & _). rewrite Hev. discriminate. }
  destruct (decide (address = "/live/beat")) as [Hbeat|Hbeat]; simpl.
  { destruct (beat_callback s) as [cb|] eqn:Hcb; simpl; [|discriminate].
    destruct (has_arg cb) as [[|]|y] eqn:Harg; simpl.
    - destruct data as [|d0 rest]; simpl.
      + intros [= <-]. right. right. right. repeat split. exact Hbeat.
      + intros H. apply call_raise_origin in H.
        right. left. exists cb. repeat split; eauto.
    - intros H. apply call_raise_origin in H.
      right. left. exists cb. repeat split; eauto.
    - intros [= <-]. apply has_arg_raise_origin in Harg.
      right. left. exists cb. repeat split; eauto. }
  destruct (decide (address = "/remix/oscserver/startup")) as [Hst|Hst]; simpl.
  { destruct (startup_callback s) as [cb|] eqn:Hcb; simpl; [|discriminate].
    intros H. apply call_raise_origin in H.
    right. right. left. exists cb. repeat split; assumption. }
  discriminate.
Qed.

(** ** Edge cases of the dispatcher *)

(** X9: a /live/beat message without arguments, for a beat callback that
    takes the beat count: once the push handlers have returned, reading the
    first argument raises IndexError, which leaves the dispatcher, and the
    beat callback is not invoked. *)
Theorem beat_without_arguments (s : Live) (types : option string)
    (cb : Callback) :
  beat_callback s = Some cb ->
  has_arg cb = Returned true ->
  query_address s <> Some "/live/beat" ->
  quiet [] (push_targets s "/live/beat") = true ->
  handler "/live/beat" [] types s
  = (set_calls (calls s ++ invocations [] (push_targets s "/live/beat"))
       (logged_input "/live/beat" [] s),
     Raised (mkExn IndexError "index out of range")).
Proof.
  intros Hcb Harg Hq Hquiet.
  assert (Hclean : logs_cleanly (OSC_input "/live/beat" []) = true).
  { unfold logs_cleanly, reformat_error. simpl.
    rewrite plain_text_passes; reflexivity. }
  pose proof (for_each_call_quiet [] _ (logged_input "/live/beat" [] s) Hquiet)
    as Hloop.
  enter_handler Hclean Hloop. simpl.
  destruct (decide (query_address s = Some "/live/beat")); [contradiction|].
  simpl. rewrite Hcb. simpl. rewrite Harg. reflexivity.
Qed.

(** X10: a message nobody listens to is dropped.  When the logger takes
    its input line and its address has no push handler, is not the pending
    address, and has no beat or startup callback to go to, the dispatcher
    returns normally and the only trace it leaves is the input line in the
    debug log. *)
Theorem unclaimed_message_is_dropped (s : Live) (address : string)
    (data : list Value) (types : option string) :
  logs_cleanly (OSC_input address data) = true ->
  push_targets s address = [] ->
  query_address s <> Some address ->
  (address = "/live/beat" -> beat_callback s = None) ->
  (address = "/remix/oscserver/startup" -> startup_callback s = None) ->
  handler address data types s
  = (logged_input address data s, Returned tt).
Proof.
  intros Hclean Hpt Hq Hbeat Hstart.
  assert (Hloop : for_each (push_targets s address) (fun h => call h data)
                    (logged_input address data s)
                  = (logged_input address data s, Returned tt))
    by (rewrite Hpt; reflexivity).
  enter_handler Hclean Hloop. simpl.
  destruct (decide (query_address s = Some address)); [contradiction|].
  simpl.
  destruct (decide (address = "/live/beat")) as [Hb|Hb]; simpl.
  { rewrite (Hbeat Hb). reflexivity. }
  destruct (decide (address = "/remix/oscserver/startup")) as [Hs|Hs]; simpl.
  { rewrite (Hstart Hs). reflexivity. }
  reflexivity.
Qed.

(** ** Registration on several addresses *)

(** X11: registrations on different addresses do not interfere: a
    registration leaves the callbacks of every other address as they were,
    and two registrations on different addresses give the same engine
    state in either order. *)
Theorem add_handler_addresses_independent (s : Live) (a b : string)
    (ca cb : Callback) :
  a <> b ->
  push_targets (fst (add_handler a ca s)) b = push_targets s b /\
  fst (add_handler b cb (fst (add_handler a ca s)))
  = fst (add_handler a ca (fst (add_handler b cb s))).
Proof.
  intros Hab.
  assert (Hother : forall (x y : string) (c : Callback) (t : Live),
             x <> y ->
             push_targets (fst (add_handler x c t)) y = push_targets t y).
  { intros x y c t Hxy. rewrite add_handler_spec. unfold push_targets. simpl.
    rewrite lookup_insert_ne by exact Hxy. reflexivity. }
  split; [apply Hother; exact Hab|].
  rewrite (add_handler_spec b cb (fst (add_handler a ca s))).
  rewrite (add_handler_spec a ca (fst (add_handler b cb s))).
  rewrite (Hother a b ca s Hab).
  rewrite (Hother b a cb s (not_eq_sym Hab)).
  rewrite !add_handler_spec. unfold set_handlers. simpl.
  rewrite insert_insert_ne by (apply not_eq_sym; exact Hab). reflexivity.
Qed.

(** ** The kwargs of [query] *)

(** X12: an empty [response_address] is no override: such a query sends,
    waits and answers exactly as the same query without the kwarg, the
    reply being awaited at the request address. *)
Theorem empty_override_is_no_override (s : Live) (msg : string)
    (args : list Value) (timeout : option Z)
    (arrivals : list (string * list Value)) :
  effective_response_address msg (mkKwargs (Some "") timeout) = msg /\
  snd (query msg args (mkKwargs (Some "") timeout) arrivals s)
  = snd (query msg args (mkKwargs None timeout) arrivals s).
Proof.
  assert (Heff : effective_response_address msg (mkKwargs (Some "") timeout)
                 = msg) by reflexivity.
  split; [exact Heff|].
  destruct (next_send_raises s) eqn:Hs.
  - rewrite !(query_send_raised _ _ _ _ _ Hs). reflexivity.
  - rewrite !(query_after_send _ _ _ _ _ Hs).
    assert (Hsame : query_send msg args (mkKwargs (Some "") timeout) s
                    = query_send msg args (mkKwargs None timeout) s)
      by reflexivity.
    rewrite Hsame.
    set (t := fst (receive arrivals
                     (fst (query_send msg args (mkKwargs None timeout) s)))).
    destruct (is_set (length (event_flags s)) t) eqn:Hset.
    + rewrite !(query_resume_set _ _ _ _ _ Hset). reflexivity.
    + destruct (query_resume_unset msg args (mkKwargs (Some "") timeout)
                  _ t Hset) as (-> & _).
      destruct (query_resume_unset msg args (mkKwargs None timeout)
                  _ t Hset) as (-> & _).
      unfold timeout_outcome, reformat_error. simpl.
      assert (Hsame_err :
        first_error (msg :: value_strings args ++ [""])
        = first_error (msg :: value_strings args ++ [])).
      { simpl. destruct (conversion_error msg); [reflexivity|].
        induction (value_strings args) as [|u us IH]; simpl.
        - rewrite plain_text_passes; reflexivity.
        - destruct (conversion_error u); [reflexivity|exact IH]. }
      simpl in Hsame_err. rewrite Hsame_err. reflexivity.
Qed.

(** ** Choosing the backend at import *)

(** X13: which backend the module ends up with.  pythonosc is used exactly
    when PYLIVE_BACKEND is set to something other than liblo (pythonosc
    itself or an unsupported value) and pythonosc can be imported; in every
    other case liblo is used when it can be imported, and the import of the
    module fails with liblo's ImportError when it cannot.  The final
    assert never fails.  An unsupported value is warned about, and so is
    the fall-back from pythonosc to liblo. *)
Theorem backend_selection (env : ImportEnv) :
  let requested := default "liblo" (env_PYLIVE_BACKEND env) in
  let wants_pythonosc := negb (String.eqb requested "liblo") in
  snd (select_backend env)
  = (if wants_pythonosc && can_import_pythonosc env then Returned pythonosc
     else if can_import_liblo env then Returned liblo
     else Raised (mkExn (OtherError "ImportError") "liblo")) /\
  fst (select_backend env)
  = (if str_in requested supported_backends then []
     else [Warn_unsupported requested])
    ++ (if wants_pythonosc && negb (can_import_pythonosc env)
        then [Warn_trying_liblo] else []).
Proof.
  cbv zeta. unfold select_backend, str_in, supported_backends.
  generalize (default "liblo" (env_PYLIVE_BACKEND env)). intros r.
  simpl existsb.
  destruct (String.eqb_spec r "pythonosc") as [->|Hp].
  - simpl. destruct (can_import_pythonosc env), (can_import_liblo env);
      split; reflexivity.
  - destruct (String.eqb_spec r "liblo") as [->|Hl].
    + simpl. destruct (can_import_pythonosc env), (can_import_liblo env);
        split; reflexivity.
    + simpl. destruct (can_import_pythonosc env), (can_import_liblo env);
        split; reflexivity.
Qed.

(** ** The singleton and the module-level helpers *)

Lemma getinstances_stored (b : Backend) (calls : list (CtorArgs * bool))
    (q : QueryInstance) :
  getinstances b calls (Some q) = Some q.
Proof.
  unfold getinstances. induction calls as [|c cs IH]; simpl; [reflexivity|].
  exact IH.
Qed.

(** X14: there is one engine per process, built by the first call that
    can build it.  Over any sequence of calls [Query(...)], the instance
    stored at the end is the one constructed from the arguments of the
    first call whose arguments fit and whose bind went through; the calls
    before it stored nothing and the calls after it, whatever their
    arguments, changed nothing.  A module-level [cmd] or [query] runs on
    the stored engine and leaves its new state there, with the address and
    port it was built with. *)
Theorem singleton_shares_one_engine (b : Backend)
    (calls : list (CtorArgs * bool)) (bind_fails : bool)
    (q : QueryInstance) (msg : string) (args : list Value) (kwargs : Kwargs)
    (arrivals : list (string * list Value)) :
  getinstances b calls None
  = match List.find builds calls with
    | Some c =>
        match construct b (fst c) with
        | Returned built => Some built
        | Raised _ => None
        end
    | None => None
    end /\
  getinstances b calls (Some q) = Some q /\
  live_cmd b bind_fails msg args (Some q)
  = (Some (mkQueryInstance (osc_address q) (listen_port q)
             (fst (cmd msg args (engine q)))),
     snd (cmd msg args (engine q))) /\
  live_query b bind_fails msg args kwargs arrivals (Some q)
  = (Some (mkQueryInstance (osc_address q) (listen_port q)
             (fst (query msg args kwargs arrivals (engine q)))),
     snd (query msg args kwargs arrivals (engine q))).
Proof.
  split; [|split; [apply getinstances_stored|]].
  - induction calls as [|[a f] cs IH]; [reflexivity|].
    unfold getinstances. simpl fold_left. simpl List.find.
    unfold builds at 1. simpl fst. simpl snd.
    destruct a; simpl.
    + destruct f; simpl; [exact IH|].
      fold (getinstances b cs (Some (mkQueryInstance ("127.0.0.1", 9900%Z)
                                       9002%Z (init b)))).
      apply getinstances_stored.
    + destruct f; simpl; [exact IH|].
      fold (getinstances b cs (Some (mkQueryInstance address 9002%Z (init b)))).
      apply getinstances_stored.
    + destruct f; simpl; [exact IH|].
      fold (getinstances b cs (Some (mkQueryInstance address port (init b)))).
      apply getinstances_stored.
    + exact IH.
  - unfold live_cmd, live_query, on_instance, getinstance.
    split.
    + destruct (cmd msg args (engine q)) as [s1 r1]. reflexivity.
    + destruct (query msg args kwargs arrivals (engine q)) as [s1 r1].
      reflexivity.
Qed.

(** ** The entry points guarded by a backend assertion *)

(** X15: the entry points registered with one backend only work under
    that backend.  Under pythonosc the wrapper dispatches exactly as
    [handler] does with no type string, and the bundle handlers fail their
    assertion; under liblo the bundle handlers add their line to the debug
    log and nothing else, and the wrapper fails its assertion.  A failed
    assertion leaves the engine untouched: nothing is logged or
    dispatched. *)
Theorem backend_guarded_entry_points (s : Live) (address : string)
    (args : list Value) :
  let failed := (s, Raised (mkExn (OtherError "AssertionError") "")) in
  match OSC_BACKEND s with
  | pythonosc =>
      pythonosc_handler_wrapper address args s = handler address args None s /\
      start_bundle_handler s = failed /\
      end_bundle_handler s = failed
  | liblo =>
      pythonosc_handler_wrapper address args s = failed /\
      start_bundle_handler s
      = (set_debug_log (debug_log s ++ [OSC_start_bundle]) s, Returned tt) /\
      end_bundle_handler s
      = (set_debug_log (debug_log s ++ [OSC_end_bundle]) s, Returned tt)
  end.
Proof.
  cbv zeta.
  unfold pythonosc_handler_wrapper, start_bundle_handler, end_bundle_handler,
    assert_backend.
  unfold log_debug, bind, gets, ret, raise, modify.
  destruct (OSC_BACKEND s); repeat split; reflexivity.
Qed.

(** ** Events and messages, counted *)

Lemma step_counts (o : Op) (s : Live) :
  send_faults s = [] ->
  send_faults (step o s) = [] /\
  OSC_BACKEND (step o s) = OSC_BACKEND s /\
  wire (step o s) = wire s ++ sent_by (OSC_BACKEND s) o /\
  length (event_flags (step o s))
  = (length (event_flags s) + (if issues_query o then 1 else 0))%nat.
Proof.
  intros Hf.
  destruct o as [msg args|msg args kwargs|address data types|address cb|cb|cb];
    simpl.
  - unfold cmd, log_debug, backend_send. munfold. simpl. rewrite Hf. simpl.
    repeat split; try assumption. lia.
  - unfold query_send, cmd, log_debug, backend_send. munfold. simpl.
    rewrite Hf. simpl.
    repeat split; try assumption. rewrite length_app. reflexivity.
  - destruct (handler_frame address data types s)
      as ((Hb & _) & _ & _ & Hlen & Hw & Hsf).
    rewrite Hb, Hw, Hsf, Hlen, app_nil_r. repeat split; try assumption. lia.
  - rewrite add_handler_spec. simpl. rewrite app_nil_r.
    repeat split; try assumption. lia.
  - rewrite app_nil_r. repeat split; try assumption. lia.
  - rewrite app_nil_r. repeat split; try assumption. lia.
Qed.

(** X16: with a transport that does not fail, the wire holds exactly one
    message per [cmd] and per [query], at the request address and in call
    order, with the payload the backend is handed; dispatches and
    registrations send nothing.  Every query allocates one event and
    nothing else does, so the events only accumulate. *)
Theorem sends_and_events_counted (ops : list Op) (s : Live) :
  send_faults s = [] ->
  wire (run ops s) = wire s ++ flat_map (sent_by (OSC_BACKEND s)) ops /\
  length (event_flags (run ops s))
  = (length (event_flags s) + length (List.filter issues_query ops))%nat.
Proof.
  revert s. induction ops as [|o ops IH]; intros s Hf; simpl.
  - rewrite app_nil_r. split; [reflexivity|lia].
  - destruct (step_counts o s Hf) as (Hf' & Hb & Hw & Hlen).
    destruct (IH (step o s) Hf') as (IW & IL).
    rewrite IW, IL, Hw, Hb, Hlen, <- app_assoc.
    split; [reflexivity|].
    destruct (issues_query o); simpl; lia.
Qed.

End Logger.


(** * The properties at concrete inputs

    From here on the logger is the sample one, which takes every line
    without a percent sign, as the inputs below are. *)

Lemma sample_rule_plain :
  forall t, str_has_percent t = false -> sample_rule t = None.
Proof. intros t H. unfold sample_rule. rewrite H. reflexivity. Qed.

(** ** The scenarios, evaluated *)

Example cmd_tempo_liblo :
  wire (fst (cmd sample_rule "/live/tempo" [VFloat 110 0] (init liblo)))
  = [("/live/tempo", Args [VFloat 110 0])].
Proof. reflexivity. Qed.

Example cmd_tempo_pythonosc :
  wire (fst (cmd sample_rule "/live/tempo" [VFloat 110 0] (init pythonosc)))
  = [("/live/tempo", Bare (VFloat 110 0))].
Proof. reflexivity. Qed.

Example query_tempo_reply :
  snd (query sample_rule "/live/tempo" [] no_kwargs
         [("/live/tempo", [VFloat 120 0])] (init liblo))
  = Returned [VFloat 120 0].
Proof. vm_compute. reflexivity. Qed.

Example query_tempo_silence :
  snd (query sample_rule "/live/tempo" [] no_kwargs [] (init liblo))
  = Raised (mkExn LiveConnectionError timeout_error_message).
Proof. vm_compute. reflexivity. Qed.

Example beat_zero_arity :
  calls (fst (handler sample_rule "/live/beat" [VInt 42] None
                (set_beat_callback (Some (cb_ok "tick" 0)) (init liblo))))
  = [(cb_ok "tick" 0, [])].
Proof. vm_compute. reflexivity. Qed.

Example percent_in_reply_is_refused :
  handler sample_rule "/live/name" [VStr "100%"] None (init liblo)
  = (init liblo,
     Raised (mkExn (OtherError "TypeError")
               "not enough arguments for format string")).
Proof. vm_compute. reflexivity. Qed.

(** ** Counterexamples to the claims as stated *)


(** C2, as stated, fails: the first handler registered on /live/tempo
    raises, the second one is never invoked, the reply of the query pending
    on /live/tempo is not extended, its event is not set, the exception
    leaves the dispatcher and no line is logged for it. *)
Lemma raising_handler_not_isolated :
  let s := tempo_watchers sample_rule in
  let out := handler sample_rule "/live/tempo" [VFloat 120 0] None s in
  push_targets s "/live/tempo" = [cb_bad "first"; cb_ok "second" 1] /\
  query_address s = Some "/live/tempo" /\
  osc_server_events s !! "/live/tempo" = Some 0%nat /\
  snd out = Raised boom /\
  ~ In (cb_ok "second" 1, [VFloat 120 0]) (calls (fst out)) /\
  query_rv (fst out) = [] /\
  is_set 0 (fst out) = false /\
  debug_log (fst out)
    = debug_log s ++ [OSC_input "/live/tempo" [VFloat 120 0]].
Proof.
  cbv zeta. repeat match goal with |- _ /\ _ => split end;
    try (vm_compute; reflexivity).
  assert (Hc : calls (fst (handler sample_rule "/live/tempo" [VFloat 120 0]
                             None (tempo_watchers sample_rule)))
               = [(cb_bad "first", [VFloat 120 0])])
    by (vm_compute; reflexivity).
  rewrite Hc. intros [H|[]]. discriminate H.
Qed.

(** C3, as stated, fails: a message at /live/beat that is the awaited reply
    resolves the query and the registered beat callback is not invoked; the
    same holds for /remix/oscserver/startup and the startup callback. *)
Lemma correlated_special_message_skips_callback :
  let at_beat := pending_on sample_rule "/live/beat" in
  let at_startup := pending_on sample_rule "/remix/oscserver/startup" in
  let beat := handler sample_rule "/live/beat" [VInt 42] None at_beat in
  let startup := handler sample_rule "/remix/oscserver/startup" [] None
                   at_startup in
  beat_callback at_beat = Some (cb_ok "tick" 0) /\
  query_address at_beat = Some "/live/beat" /\
  snd beat = Returned tt /\
  query_rv (fst beat) = [VInt 42] /\
  is_set 0 (fst beat) = true /\
  calls (fst beat) = [] /\
  startup_callback at_startup = Some (cb_ok "started" 0) /\
  is_set 0 (fst startup) = true /\
  calls (fst startup) = [].
Proof. cbv zeta. repeat match goal with |- _ /\ _ => split end; vm_compute; reflexivity. Qed.

(** C4, as stated, fails: the error of a query that timed out and the
    error of a query whose send failed are of the same class. *)
Lemma timeout_and_send_failure_same_class :
  exists e_timeout e_send,
    snd (query sample_rule "/live/tempo" [] no_kwargs [] (init liblo))
    = Raised e_timeout /\
    snd (query sample_rule "/live/tempo" [] no_kwargs []
           (set_send_faults [true] (init liblo))) = Raised e_send /\
    exn_class e_timeout = exn_class e_send.
Proof.
  exists (mkExn LiveConnectionError timeout_error_message),
         (mkExn LiveConnectionError send_error_message).
  repeat match goal with |- _ /\ _ => split end; vm_compute; reflexivity.
Qed.

(** C5, as stated, fails: after a query whose send raised, the event it
    installed is still filed under the response address and that address is
    still the pending one, where before the call there was neither. *)
Lemma failed_send_leaves_entry :
  let s := set_send_faults [true] (init liblo) in
  let out := query sample_rule "/live/tempo" [] no_kwargs [] s in
  snd out = Raised (mkExn LiveConnectionError send_error_message) /\
  osc_server_events s !! "/live/tempo" = None /\
  query_address s = None /\
  osc_server_events (fst out) !! "/live/tempo" = Some 0%nat /\
  query_address (fst out) = Some "/live/tempo".
Proof. cbv zeta. repeat match goal with |- _ /\ _ => split end; vm_compute; reflexivity. Qed.


(** C8, as stated, fails: two handlers are registered on /live/track, the
    first of which raises; one message at /live/track invokes the first and
    never the second. *)
Lemma raising_handler_skips_later_handlers :
  let s := track_watchers sample_rule in
  let out := handler sample_rule "/live/track" [VInt 5] None s in
  push_targets s "/live/track" = [cb_bad "f"; cb_ok "g" 1] /\
  snd out = Raised boom /\
  calls (fst out) = [(cb_bad "f", [VInt 5])] /\
  ~ In (cb_ok "g" 1, [VInt 5]) (calls (fst out)).
Proof.
  cbv zeta.
  assert (Hc : calls (fst (handler sample_rule "/live/track" [VInt 5] None
                             (track_watchers sample_rule)))
               = [(cb_bad "f", [VInt 5])])
    by (vm_compute; reflexivity).
  repeat match goal with |- _ /\ _ => split end;
    try (vm_compute; reflexivity).
  rewrite Hc. intros [H|[]]. discriminate H.
Qed.

(** C9, as stated, fails: with a beat callback registered, of either arity,
    a message at /live/beat that answers a query pending on /live/beat does
    not invoke the callback at all. *)
Lemma awaited_beat_skips_callback :
  let zero := beat_awaited sample_rule (cb_ok "tick" 0) in
  let one := beat_awaited sample_rule (cb_ok "count" 1) in
  beat_callback zero = Some (cb_ok "tick" 0) /\
  snd (handler sample_rule "/live/beat" [VInt 42] None zero) = Returned tt /\
  calls (fst (handler sample_rule "/live/beat" [VInt 42] None zero)) = [] /\
  beat_callback one = Some (cb_ok "count" 1) /\
  snd (handler sample_rule "/live/beat" [VInt 42] None one) = Returned tt /\
  calls (fst (handler sample_rule "/live/beat" [VInt 42] None one)) = [].
Proof. cbv zeta. repeat match goal with |- _ /\ _ => split end; vm_compute; reflexivity. Qed.

(** ** The theorems applied *)


Lemma raising_handler_aborts_dispatch_witness :
  snd (handler sample_rule "/live/tempo" [VFloat 120 0] None
         (tempo_watchers sample_rule)) = Raised boom /\
  calls (fst (handler sample_rule "/live/tempo" [VFloat 120 0] None
                (tempo_watchers sample_rule)))
  = calls (tempo_watchers sample_rule)
    ++ invocations [VFloat 120 0] ([] ++ [cb_bad "first"]).
Proof.
  pose proof (raising_handler_aborts_dispatch sample_rule
                (tempo_watchers sample_rule) "/live/tempo"
                [VFloat 120 0] None [] [cb_ok "second" 1] (cb_bad "first")
                boom) as H.
  cbv zeta in H.
  destruct H as (H1 & H2 & _);
    [by_evaluation|by_evaluation|by_evaluation|by_evaluation|].
  split; [exact H1|exact H2].
Defined.

Lemma correlation_excludes_special_witness :
  calls (fst (handler sample_rule "/live/beat" [VInt 42] None
                (pending_on sample_rule "/live/tempo")))
  = calls (pending_on sample_rule "/live/tempo")
    ++ invocations [VInt 42]
         (push_targets (pending_on sample_rule "/live/tempo") "/live/beat")
    ++ [(cb_ok "tick" 0, [])].
Proof.
  pose proof (correlation_excludes_special sample_rule
                (pending_on sample_rule "/live/tempo")
                "/live/beat" [VInt 42] None) as H.
  cbv zeta in H.
  destruct H as (_ & _ & Hbeat & _); [by_evaluation|by_evaluation|].
  apply Hbeat; [vm_compute; discriminate|reflexivity|by_evaluation
               |by_evaluation].
Defined.

Lemma query_failures_differ_by_message_witness :
  snd (query sample_rule "/live/tempo" [] no_kwargs
         [("/live/beat", [VInt 1])] (init liblo))
  = Raised (mkExn LiveConnectionError timeout_error_message).
Proof.
  pose proof (query_failures_differ_by_message sample_rule (init liblo)
                "/live/tempo" [] no_kwargs [("/live/beat", [VInt 1])]) as H.
  destruct H as (H & _); [by_evaluation|by_evaluation|]. exact H.
Defined.

Lemma failed_send_propagates_witness :
  query_address
    (fst (query sample_rule "/live/tempo" [] no_kwargs []
            (set_send_faults [true] (init liblo))))
  = Some "/live/tempo".
Proof.
  pose proof (failed_send_propagates sample_rule
                (set_send_faults [true] (init liblo))
                "/live/tempo" [] no_kwargs []) as H.
  cbv zeta in H.
  destruct H as (_ & _ & _ & H & _); [by_evaluation|by_evaluation|].
  exact H.
Defined.


Lemma newer_query_supersedes_witness :
  let s3 :=
    run sample_rule
      [OpHandler "/live/tempo" [VFloat 120 0] None;
       OpHandler "/live/volume" [VInt 3] None]
      (fst (query_send sample_rule "/live/volume" [] no_kwargs
              (fst (query_send sample_rule "/live/tempo" [] no_kwargs
                      (init liblo))))) in
  is_set 0 s3 = false /\
  snd (query_resume sample_rule "/live/tempo" [] no_kwargs 0 s3)
  = Raised (mkExn LiveConnectionError timeout_error_message).
Proof.
  pose proof (newer_query_supersedes sample_rule (init liblo)
                "/live/tempo" [] no_kwargs []
                "/live/volume" [] no_kwargs
                [OpHandler "/live/tempo" [VFloat 120 0] None;
                 OpHandler "/live/volume" [VInt 3] None]) as H.
  cbv zeta in H.
  destruct H as (_ & _ & _ & _ & _ & _ & Hclear & _ & Hres); [by_evaluation|].
  cbv zeta. split; [exact Hclear|]. apply Hres. by_evaluation.
Defined.

Lemma registered_handlers_all_invoked_witness :
  calls (fst (handler sample_rule "/live/track" [VInt 5] None
                (run sample_rule
                   (map (OpAddHandler "/live/track")
                      [cb_ok "f" 1; cb_ok "f" 1; cb_ok "g" 1])
                   (init liblo))))
  = [(cb_ok "f" 1, [VInt 5]); (cb_ok "f" 1, [VInt 5]); (cb_ok "g" 1, [VInt 5])].
Proof.
  pose proof (registered_handlers_all_invoked sample_rule (init liblo)
                "/live/track" [cb_ok "f" 1; cb_ok "f" 1; cb_ok "g" 1]
                [VInt 5] None) as H.
  cbv zeta in H. destruct H as (_ & _ & H & _).
  destruct H as (_ & H); [by_evaluation|by_evaluation|].
  apply H; [reflexivity|discriminate|discriminate].
Defined.

Lemma beat_callback_by_arity_witness :
  calls (fst (handler sample_rule "/live/beat" [VInt 42] None
                (set_beat_callback (Some (cb_ok "tick" 0)) (init liblo))))
  = [(cb_ok "tick" 0, [])] /\
  calls (fst (handler sample_rule "/live/beat" [VInt 42] None
                (set_beat_callback (Some (cb_ok "count" 1)) (init liblo))))
  = [(cb_ok "count" 1, [VInt 42])].
Proof.
  split.
  - pose proof (beat_callback_by_arity sample_rule
                  (set_beat_callback (Some (cb_ok "tick" 0)) (init liblo))
                  [VInt 42] None (cb_ok "tick" 0) 0) as H.
    cbv zeta in H.
    destruct H as (H & _);
      [reflexivity|reflexivity|discriminate|by_evaluation|by_evaluation|].
    apply H. reflexivity.
  - pose proof (beat_callback_by_arity sample_rule
                  (set_beat_callback (Some (cb_ok "count" 1)) (init liblo))
                  [VInt 42] None (cb_ok "count" 1) 1) as H.
    cbv zeta in H.
    destruct H as (_ & H);
      [reflexivity|reflexivity|discriminate|by_evaluation|by_evaluation|].
    apply (H (VInt 42) []); [lia|reflexivity].
Defined.

Lemma query_returns_merged_replies_witness :
  snd (query sample_rule "/live/name/track" [] no_kwargs
         [("/live/name/track", [VInt 0; VStr "Bass"]);
          ("/live/beat", [VInt 7]);
          ("/live/name/track", [VInt 1; VStr "Drums"])]
         (init liblo))
  = Returned [VInt 0; VStr "Bass"; VInt 1; VStr "Drums"].
Proof.
  pose proof (query_returns_merged_replies sample_rule (init liblo)
                "/live/name/track" [] no_kwargs
                [("/live/name/track", [VInt 0; VStr "Bass"]);
                 ("/live/beat", [VInt 7]);
                 ("/live/name/track", [VInt 1; VStr "Drums"])]) as H.
  cbv zeta in H. destruct H as (H & _); [by_evaluation|].
  rewrite H. by_evaluation.
Defined.

Lemma query_outcome_ignores_history_witness :
  snd (query sample_rule "/live/tempo" [] no_kwargs
         [("/live/tempo", [VFloat 90 0])]
         (fst (query sample_rule "/live/tempo" [] no_kwargs
                 [("/live/tempo", [VFloat 120 0])] (init liblo))))
  = snd (query sample_rule "/live/tempo" [] no_kwargs
           [("/live/tempo", [VFloat 90 0])] (init liblo)).
Proof.
  apply (query_outcome_ignores_history sample_rule); by_evaluation.
Defined.

Lemma query_raises_only_connection_error_witness :
  exn_class (mkExn LiveConnectionError timeout_error_message)
  = LiveConnectionError \/
  reformat_error sample_rule
    (During_cmd "/live/tempo" (cmd_payload liblo []))
  = Some (mkExn LiveConnectionError timeout_error_message) \/
  reformat_error sample_rule
    (Timeout_during_query "/live/tempo" [] no_kwargs)
  = Some (mkExn LiveConnectionError timeout_error_message).
Proof.
  apply (query_raises_only_connection_error sample_rule
           (tempo_watchers sample_rule) "/live/tempo" [] no_kwargs
           [("/live/tempo", [VFloat 120 0])]).
  by_evaluation.
Defined.

Lemma set_event_stays_set_witness :
  is_set 0
    (run sample_rule
       [OpQuerySend "/live/volume" [] no_kwargs;
        OpHandler "/live/volume" [VInt 3] None;
        OpCmd "/live/play" []]
       (fst (handler sample_rule "/live/tempo" [VFloat 120 0] None
               (fst (query_send sample_rule "/live/tempo" [] no_kwargs
                       (init liblo))))))
  = true.
Proof. apply set_event_stays_set. by_evaluation. Defined.

Lemma registrations_are_permanent_witness :
  is_Some (osc_server_events
             (run sample_rule
                [OpQuerySend "/live/volume" [] no_kwargs;
                 OpHandler "/live/tempo" [VFloat 120 0] None]
                (fst (query_send sample_rule "/live/tempo" [] no_kwargs
                        (init liblo))))
           !! "/live/tempo").
Proof.
  apply (registrations_are_permanent sample_rule
           [OpQuerySend "/live/volume" [] no_kwargs;
            OpHandler "/live/tempo" [VFloat 120 0] None]
           (fst (query_send sample_rule "/live/tempo" [] no_kwargs
                   (init liblo)))
           "/live/tempo").
  exists 0%nat. by_evaluation.
Defined.

Lemma pending_address_always_filed_witness :
  exists ev,
    osc_server_events (tempo_watchers sample_rule) !! "/live/tempo" = Some ev /\
    (ev < length (event_flags (tempo_watchers sample_rule)))%nat.
Proof.
  apply (pending_address_always_filed sample_rule liblo
           [OpAddHandler "/live/tempo" (cb_bad "first");
            OpAddHandler "/live/tempo" (cb_ok "second" 1);
            OpQuerySend "/live/tempo" [] no_kwargs]
           "/live/tempo").
  by_evaluation.
Defined.

Lemma pending_slot_outlives_query_witness :
  query_address
    (run sample_rule
       [OpHandler "/live/tempo" [VFloat 120 0] None;
        OpCmd "/live/play" [];
        OpHandler "/live/tempo" [VFloat 121 0] None]
       (fst (query sample_rule "/live/tempo" [] no_kwargs [] (init liblo))))
  = Some "/live/tempo".
Proof.
  pose proof (pending_slot_outlives_query sample_rule
                [OpHandler "/live/tempo" [VFloat 120 0] None;
                 OpCmd "/live/play" [];
                 OpHandler "/live/tempo" [VFloat 121 0] None]
                (fst (query sample_rule "/live/tempo" [] no_kwargs []
                        (init liblo)))) as H.
  destruct H as (H & _); [by_evaluation|]. rewrite H. by_evaluation.
Defined.

Lemma dispatcher_exceptions_come_from_callbacks_witness :
  exists cb,
    In cb (push_targets (tempo_watchers sample_rule) "/live/tempo") /\
    cb_body cb [VFloat 120 0] = Some boom.
Proof.
  pose proof (dispatcher_exceptions_come_from_callbacks sample_rule liblo
                [OpAddHandler "/live/tempo" (cb_bad "first");
                 OpAddHandler "/live/tempo" (cb_ok "second" 1);
                 OpQuerySend "/live/tempo" [] no_kwargs]
                "/live/tempo" [VFloat 120 0] None boom) as H.
  cbv zeta in H.
  destruct H as [Hl|[H|[(cb & Hb & _)|[(cb & Hs & _)|(Hb & _)]]]];
    [by_evaluation|vm_compute in Hl; discriminate Hl|exact H
    |discriminate Hb|discriminate Hs|discriminate Hb].
Defined.

Lemma beat_without_arguments_witness :
  snd (handler sample_rule "/live/beat" [] None
         (set_beat_callback (Some (cb_ok "count" 1)) (init liblo)))
  = Raised (mkExn IndexError "index out of range").
Proof.
  rewrite (beat_without_arguments sample_rule sample_rule_plain
             (set_beat_callback (Some (cb_ok "count" 1)) (init liblo))
             None (cb_ok "count" 1));
    [reflexivity|reflexivity|reflexivity|discriminate|by_evaluation].
Defined.

Lemma unclaimed_message_is_dropped_witness :
  handler sample_rule "/live/clip/info" [VInt 1; VInt 2] None
    (tempo_watchers sample_rule)
  = (logged_input "/live/clip/info" [VInt 1; VInt 2]
       (tempo_watchers sample_rule),
     Returned tt).
Proof.
  apply unclaimed_message_is_dropped;
    [by_evaluation|by_evaluation|vm_compute; discriminate|discriminate
    |discriminate].
Defined.

Lemma add_handler_addresses_independent_witness :
  push_targets
    (fst (add_handler "/live/volume" (cb_ok "v" 1)
            (tempo_watchers sample_rule)))
    "/live/tempo"
  = push_targets (tempo_watchers sample_rule) "/live/tempo".
Proof.
  apply (add_handler_addresses_independent (tempo_watchers sample_rule)
           "/live/volume" "/live/tempo" (cb_ok "v" 1) (cb_ok "t" 1)).
  discriminate.
Defined.

Lemma empty_override_is_no_override_witness :
  snd (query sample_rule "/live/tempo" [] (mkKwargs (Some "") None)
         [("/live/tempo", [VFloat 120 0])] (init liblo))
  = snd (query sample_rule "/live/tempo" [] (mkKwargs None None)
           [("/live/tempo", [VFloat 120 0])] (init liblo)).
Proof.
  apply (empty_override_is_no_override sample_rule sample_rule_plain).
Defined.

Lemma sends_and_events_counted_witness :
  wire (run sample_rule
          [OpCmd "/live/tempo" [VFloat 110 0];
           OpHandler "/live/tempo" [VFloat 110 0] None;
           OpQuerySend "/live/volume" [VInt 2] no_kwargs]
          (init pythonosc))
  = [("/live/tempo", Bare (VFloat 110 0)); ("/live/volume", Bare (VInt 2))].
Proof.
  pose proof (sends_and_events_counted sample_rule
                [OpCmd "/live/tempo" [VFloat 110 0];
                 OpHandler "/live/tempo" [VFloat 110 0] None;
                 OpQuerySend "/live/volume" [VInt 2] no_kwargs]
                (init pythonosc)) as H.
  destruct H as (H & _); [by_evaluation|]. rewrite H. by_evaluation.
Defined.
